(** * Tenant risk scoring service: a shallow embedding of [model/app/main.py]

    The service loads a pickled classifier once at start-up ([lifespan]),
    reports whether it is there ([health_check], GET /) and turns a request
    [{missedPeriods, totalDisputes}] into a trust score, a risk category and
    a recommendation ([predict_risk_score], POST /predict/score).

    Python floats are IEEE-754 binary64 numbers; they are modelled with the
    executable specification of the Standard Library ([SpecFloat]), so that
    [trust_probability * 100] rounds as it does in the interpreter. *)

From Stdlib Require Import ZArith Lia List String Bool QArith Qround Qabs.
From Stdlib Require Import DecimalString.
From Stdlib Require Import Floats.SpecFloat.
Import ListNotations.

Local Open Scope Z_scope.

(* ===================================================================== *)
(** ** Python values used by the service *)
(* ===================================================================== *)

(** What a [raise] can carry.  [HTTPException] is the one FastAPI turns into
    an HTTP error response; [PyError cls text] is any other instance of
    [Exception], of class [cls], whose [str()] is [text];
    [PyBaseException cls text] is an instance of [BaseException] that is not
    an [Exception]: [SystemExit], [KeyboardInterrupt], [GeneratorExit],
    [asyncio.CancelledError]. *)
Inductive exn : Type :=
| HTTPException (status_code : Z) (detail : string)
| PyError (cls : string) (text : string)
| PyBaseException (cls : string) (text : string).

(** [isinstance(e, Exception)]. *)
Definition is_Exception (e : exn) : bool :=
  match e with
  | HTTPException _ _ => true
  | PyError _ _ => true
  | PyBaseException _ _ => false
  end.

(** The outcome of evaluating a Python expression or statement. *)
Inductive result (A : Type) : Type :=
| Return (a : A)
| Raise (e : exn).
Arguments Return {A} a.
Arguments Raise {A} e.

Definition str_of_int (n : Z) : string := NilZero.string_of_int (Z.to_int n).

(** [str(e)]: Starlette prints an [HTTPException] as ["<status>: <detail>"]. *)
Definition str (e : exn) : string :=
  match e with
  | HTTPException c d => (str_of_int c ++ ": " ++ d)%string
  | PyError _ text => text
  | PyBaseException _ text => text
  end.

(* ===================================================================== *)
(** ** binary64 arithmetic *)
(* ===================================================================== *)

Module Float64.

Definition prec : Z := 53.
Definition emax : Z := 1024.

(** A Python [float] / [numpy.float64]. *)
Definition float64 : Type := spec_float.

Definition valid (x : float64) : bool := valid_binary prec emax x.

(** [float(n)] for a Python int [n], the conversion applied to the literal
    [100] when it meets a float operand. *)
Definition of_int (n : Z) : float64 := binary_normalize prec emax n 0 false.

(** [x * y], rounded to nearest, ties to even. *)
Definition mul (x y : float64) : float64 := SFmul prec emax x y.

Definition leb (x y : float64) : bool := SFleb x y.

(** [m * 2^e] truncated to an integer, for a mantissa [m] and exponent [e]. *)
Definition trunc_magnitude (m : positive) (e : Z) : Z :=
  match e with
  | Z0 => Zpos m
  | Zpos p => Z.shiftl (Zpos m) (Zpos p)
  | Zneg p => Z.shiftr (Zpos m) (Zpos p)
  end.

(** [int(x)]: the fractional part is discarded (truncation toward zero);
    NaN and the infinities have no integer value. *)
Definition to_int (x : float64) : result Z :=
  match x with
  | S754_nan => Raise (PyError "ValueError" "cannot convert float NaN to integer")
  | S754_infinity _ =>
      Raise (PyError "OverflowError" "cannot convert float infinity to integer")
  | S754_zero _ => Return 0
  | S754_finite s m e => Return (cond_Zopp s (trunc_magnitude m e))
  end.

(** The rational number a finite float stands for. *)
Definition to_Q (x : float64) : option Q :=
  match x with
  | S754_zero _ => Some (0 # 1)%Q
  | S754_finite s m e =>
      Some match e with
           | Z0 => (cond_Zopp s (Zpos m) # 1)%Q
           | Zpos p => (cond_Zopp s (Zpos m * 2 ^ Zpos p) # 1)%Q
           | Zneg p => (cond_Zopp s (Zpos m) # (2 ^ p)%positive)%Q
           end
  | _ => None
  end.

(** [math.floor(x)] as mathematics has it: the greatest integer below the
    value of [x]. *)
Definition floor (x : float64) : option Z := option_map Qfloor (to_Q x).

(** [floor] rounds to nearest instead: [floor(x + 1/2)], what the handler
    does NOT compute. *)
Definition round_half_up (x : float64) : option Z :=
  option_map (fun q => Qfloor (q + (1 # 2))%Q) (to_Q x).

(** The floor of the exact product of [x] by the integer [n], the product
    not being rounded to a float first. *)
Definition floor_of_exact_product (x : float64) (n : Z) : option Z :=
  option_map (fun q => Qfloor (q * inject_Z n)%Q) (to_Q x).

Definition zero : float64 := S754_zero false.
Definition one : float64 := S754_finite false 4503599627370496 (-52).
Definition hundred : float64 := S754_finite false 7036874417766400 (-46).

(** [0.0 <= p <= 1.0] as Python compares floats. *)
Definition is_probability (p : float64) : bool :=
  valid p && leb zero p && leb p one.

End Float64.


(* ===================================================================== *)
(** ** The request, the responses and the artifact *)
(* ===================================================================== *)

(** Modelled from the spec: [schemas.TenantScoreRequest] is not part of the
    sources at hand; the spec gives it two required integer fields. *)
Record TenantScoreRequest : Type := {
  missedPeriods : Z;
  totalDisputes : Z
}.

(** The dict returned by [predict_risk_score]. *)
Record ScoreResponse : Type := {
  trust_score : Z;
  risk_category : string;
  recommendation : string
}.

(** The dict returned by [health_check]. *)
Record HealthResponse : Type := {
  status : string;
  model_loaded : bool
}.

(** [pd.DataFrame([features])]: a list of rows, each row the items of a dict
    in insertion order. *)
Definition DataFrame : Type := list (list (string * Z)).

(** What [predict_proba] hands back: a two-dimensional array of floats,
    one row per input row. *)
Definition ndarray : Type := list (list Float64.float64).

(** The unpickled classifier, seen through the two things the service asks
    of it: its truth value ([bool(model)], which runs the object's
    [__bool__] or [__len__] and may raise) and [predict_proba]. *)
Record Artifact : Type := {
  truth_value : result bool;
  predict_proba : DataFrame -> result ndarray
}.

(** The object bound to [app.state.model]. *)
Inductive PyObject : Type :=
| PyNone
| PyArtifact (a : Artifact).

Definition is_not_None (o : PyObject) : bool :=
  match o with PyNone => false | PyArtifact _ => true end.

(** [bool(o)], the test behind [not o]. *)
Definition truthy (o : PyObject) : result bool :=
  match o with PyNone => Return false | PyArtifact a => truth_value a end.

(** [not x], for [x] the outcome of [bool()]. *)
Definition py_not (r : result bool) : result bool :=
  match r with
  | Return b => Return (negb b)
  | Raise e => Raise e
  end.

(** [bool()] returned [True]. *)
Definition is_true (r : result bool) : bool :=
  match r with Return true => true | _ => false end.

(* ===================================================================== *)
(** ** The process: state, output and the calls made to the artifact *)
(* ===================================================================== *)

Record World : Type := {
  app_state_model : option PyObject;  (* [None]: attribute not assigned yet *)
  stdout : list string;               (* lines printed so far *)
  inferences : list DataFrame         (* arguments of the [predict_proba] calls *)
}.

(** Statements run in a world and either return or raise. *)
Definition M (A : Type) : Type := World -> result A * World.

Definition ret {A : Type} (a : A) : M A := fun w => (Return a, w).

Definition raise {A : Type} (e : exn) : M A := fun w => (Raise e, w).

Definition bind {A B : Type} (c : M A) (k : A -> M B) : M B :=
  fun w =>
    match c w with
    | (Return a, w') => k a w'
    | (Raise e, w') => (Raise e, w')
    end.

(** [try: body / except Exception as e: handler e].  What is raised and is
    not an instance of [Exception] is not caught. *)
Definition try_except {A : Type} (body : M A) (handler : exn -> M A) : M A :=
  fun w =>
    match body w with
    | (Return a, w') => (Return a, w')
    | (Raise e, w') => if is_Exception e then handler e w' else (Raise e, w')
    end.

Definition lift {A : Type} (r : result A) : M A := fun w => (r, w).

Declare Scope py_scope.
Delimit Scope py_scope with py.
Notation "x <- c ;; k" := (bind c (fun x => k))
  (at level 61, c at next level, right associativity) : py_scope.
Notation "c ;; k" := (bind c (fun _ => k))
  (at level 61, right associativity) : py_scope.
Local Open Scope py_scope.

(** Reading [app.state.model]. *)
Definition get_model : M PyObject :=
  fun w =>
    match app_state_model w with
    | Some o => (Return o, w)
    | None =>
        (Raise (PyError "AttributeError" "'State' object has no attribute 'model'"), w)
    end.

(** [app.state.model = o]. *)
Definition set_model (o : PyObject) : M unit :=
  fun w =>
    (Return tt,
     {| app_state_model := Some o; stdout := stdout w; inferences := inferences w |}).

Definition print (line : string) : M unit :=
  fun w =>
    (Return tt,
     {| app_state_model := app_state_model w;
        stdout := stdout w ++ [line];
        inferences := inferences w |}).

(** The world after one more call of [predict_proba], on [x]. *)
Definition record_call (x : DataFrame) (w : World) : World :=
  {| app_state_model := app_state_model w;
     stdout := stdout w;
     inferences := inferences w ++ [x] |}.

(** [o.predict_proba(x)]: the call is recorded, then the artifact answers. *)
Definition call_predict_proba (o : PyObject) (x : DataFrame) : M ndarray :=
  match o with
  | PyNone =>
      raise (PyError "AttributeError"
                     "'NoneType' object has no attribute 'predict_proba'")
  | PyArtifact a => fun w => (predict_proba a x, record_call x w)
  end.

(** [xs[i]] on an array axis of [xs]. *)
Definition getitem {A : Type} (xs : list A) (i : nat) : result A :=
  match nth_error xs i with
  | Some x => Return x
  | None =>
      Raise (PyError "IndexError"
               ("index " ++ str_of_int (Z.of_nat i)
                ++ " is out of bounds for axis 0 with size "
                ++ str_of_int (Z.of_nat (List.length xs))))
  end.

(* ===================================================================== *)
(** ** Start-up *)
(* ===================================================================== *)

(** What the start-up code sees of the disk: whether a path exists and what
    [joblib.load] makes of it. *)
Record FileSystem : Type := {
  path_exists : string -> bool;
  joblib_load : string -> result PyObject
}.

Definition MODEL_PATH : string := "model/models/tenant_risk_model.pkl".

(** The f-string printed when the file is missing. *)
Definition not_found_message : string :=
  "❌ CRITICAL: Model file not found at " ++ MODEL_PATH.

(** [lifespan], up to its [yield]. *)
Definition lifespan (fs : FileSystem) : M unit :=
  if path_exists fs MODEL_PATH then
    o <- lift (joblib_load fs MODEL_PATH) ;;
    set_model o ;;
    print "✅ Production Model Loaded Successfully."
  else
    set_model PyNone ;;
    print not_found_message.

(** [lifespan], after its [yield]. *)
Definition lifespan_shutdown : M unit :=
  print "Shutting down Tenant Risk API...".

(** The process before [lifespan] has run. *)
Definition boot : World :=
  {| app_state_model := None; stdout := []; inferences := [] |}.

(* ===================================================================== *)
(** ** Routes *)
(* ===================================================================== *)

(** GET / *)
Definition health_check : M HealthResponse :=
  o <- get_model ;;
  ret {| status := "Online"; model_loaded := is_not_None o |}.

(** The [features] dict of a request, in insertion order. *)
Definition features (data : TenantScoreRequest) : list (string * Z) :=
  [("missedPeriods"%string, missedPeriods data);
   ("totalDisputes"%string, totalDisputes data)].

(** Step 4 of the handler: the category and the recommendation of a score. *)
Definition categorize (final_score : Z) : string * string :=
  if final_score >? 75 then ("Safe"%string, "Approve"%string)
  else if final_score <? 40 then ("Risky"%string, "Review Manually"%string)
  else ("Moderate"%string, "Review Manually"%string).

(** The body of the [try] block. *)
Definition predict_body (data : TenantScoreRequest) : M ScoreResponse :=
  let model_input : DataFrame := [features data] in
  o <- get_model ;;
  probs <- call_predict_proba o model_input ;;
  row <- lift (getitem probs 0) ;;
  trust_probability <- lift (getitem row 1) ;;
  final_score <- lift (Float64.to_int
                         (Float64.mul trust_probability (Float64.of_int 100))) ;;
  let '(category, recommendation) := categorize final_score in
  ret {| trust_score := final_score;
         risk_category := category;
         recommendation := recommendation |}.

(** POST /predict/score *)
Definition predict_risk_score (data : TenantScoreRequest) : M ScoreResponse :=
  o <- get_model ;;
  not_model <- lift (py_not (truthy o)) ;;
  if not_model then
    raise (HTTPException 503 "AI Model is not loaded on server.")
  else if (missedPeriods data =? 0) && (totalDisputes data =? 0) then
    ret {| trust_score := 100;
           risk_category := "Safe";
           recommendation := "Approve" |}
  else
    try_except (predict_body data)
      (fun e => raise (HTTPException 500 ("Prediction Error: " ++ str e))).

(** The response the handler builds from a computed score. *)
Definition response_of_score (final_score : Z) : ScoreResponse :=
  {| trust_score := final_score;
     risk_category := fst (categorize final_score);
     recommendation := snd (categorize final_score) |}.

(** The response of the automatic approval. *)
Definition perfect_record_response : ScoreResponse :=
  {| trust_score := 100; risk_category := "Safe"; recommendation := "Approve" |}.

(** Steps 2 and 3 of the handler on the array the artifact answered:
    [int(probs[0][1] * 100)]. *)
Definition score_of_probs (probs : ndarray) : result Z :=
  match getitem probs 0 with
  | Raise e => Raise e
  | Return row =>
      match getitem row 1 with
      | Raise e => Raise e
      | Return trust_probability =>
          Float64.to_int (Float64.mul trust_probability (Float64.of_int 100))
      end
  end.

(* ===================================================================== *)
(** ** The application: its two routes, served one request after another *)
(* ===================================================================== *)

(** A request to one of the routes registered on [app]. *)
Inductive Request : Type :=
| GET_root
| POST_predict_score (data : TenantScoreRequest).

(** The world after the route of [rq] has run (its answer goes to the
    client). *)
Definition serve (rq : Request) (w : World) : World :=
  match rq with
  | GET_root => snd (health_check w)
  | POST_predict_score data => snd (predict_risk_score data w)
  end.

(** The world after a sequence of requests, in order of arrival. *)
Definition serve_all (rqs : list Request) (w : World) : World :=
  fold_left (fun w' rq => serve rq w') rqs w.

(** The line [lifespan] prints when it found the file and unpickled it. *)
Definition loaded_message : string := "✅ Production Model Loaded Successfully.".

(* ===================================================================== *)
(** ** The categorisation table of the specification *)
(* ===================================================================== *)

Inductive RiskCategory : Type := Safe | Moderate | Risky.
Inductive Recommendation : Type := Approve | ReviewManually.

Definition category_name (c : RiskCategory) : string :=
  match c with Safe => "Safe" | Moderate => "Moderate" | Risky => "Risky" end.

Definition recommendation_name (r : Recommendation) : string :=
  match r with Approve => "Approve" | ReviewManually => "Review Manually" end.

(** The table of the specification, row by row, as a relation. *)
Inductive table_row : Z -> RiskCategory -> Recommendation -> Prop :=
| row_safe s : 75 < s -> table_row s Safe Approve
| row_risky s : s < 40 -> table_row s Risky ReviewManually
| row_moderate s : 40 <= s <= 75 -> table_row s Moderate ReviewManually.

(** The HTTP error the handler raises for a failure [e] of its [try] block. *)
Definition prediction_error (e : exn) : exn :=
  HTTPException 500 ("Prediction Error: " ++ str e).

Definition model_not_loaded : exn :=
  HTTPException 503 "AI Model is not loaded on server.".

(** What leaves the handler when its [try] block raised [e]: the 500 error
    for an instance of [Exception], [e] itself otherwise. *)
Definition surfaced (e : exn) : exn :=
  if is_Exception e then prediction_error e else e.

(** "The artifact's per-row probabilities lie in [0, 1]". *)
Definition probabilities_in_range (a : Artifact) : Prop :=
  forall x probs row p,
    predict_proba a x = Return probs ->
    In row probs -> In p row -> Float64.is_probability p = true.

(* ===================================================================== *)
(** ** Auxiliary notions for the rounding proofs *)
(* ===================================================================== *)

(** A shifted mantissa has lost non-zero bits. *)
Definition inexact (r : shr_record) : bool := shr_r r || shr_s r.

(** [r'] is [r] shifted right by [k] bits: the mantissa never grows, and it
    shrinks strictly when the shift is the first to lose bits. *)
Definition shr_rel (k : Z) (r r' : shr_record) : Prop :=
  0 <= shr_m r ->
  0 <= shr_m r'
  /\ shr_m r' * 2 ^ k <= shr_m r
  /\ (inexact r = false -> inexact r' = true -> shr_m r' * 2 ^ k < shr_m r).

(** The record [rec] stands for the number [N / D]: its mantissa is the
    integer part, its two bits locate the rest below, at or above the half. *)
Definition represents (rec : shr_record) (N D : Z) : Prop :=
  match shr_r rec, shr_s rec with
  | false, false => N = shr_m rec * D
  | false, true => shr_m rec * D < N /\ 2 * N < (2 * shr_m rec + 1) * D
  | true, false => 2 * N = (2 * shr_m rec + 1) * D
  | true, true => (2 * shr_m rec + 1) * D < 2 * N /\ N < (shr_m rec + 1) * D
  end.

(** [n] is the integer nearest to [N / D], the even one of the two at a tie. *)
Definition is_rne (n N D : Z) : Prop :=
  2 * Z.abs (n * D - N) <= D
  /\ (2 * Z.abs (n * D - N) = D -> Z.even n = true).

(* ===================================================================== *)
(** ** Test values *)
(* ===================================================================== *)

(** Decimal literals as the nearest binary64 numbers. *)
Definition f_0_82 : Float64.float64 := S754_finite false 7385903388887613 (-53).
Definition f_0_18 : Float64.float64 := S754_finite false 6485183463413514 (-55).
Definition f_0_30 : Float64.float64 := S754_finite false 5404319552844595 (-54).
Definition f_0_70 : Float64.float64 := S754_finite false 6305039478318694 (-53).
Definition f_0_29 : Float64.float64 := S754_finite false 5224175567749775 (-54).
Definition f_0_999 : Float64.float64 := S754_finite false 8998192055486251 (-53).
Definition f_0_76 : Float64.float64 := S754_finite false 6845471433603154 (-53).
Definition f_0_24 : Float64.float64 := S754_finite false 8646911284551352 (-55).
Definition f_0_75 : Float64.float64 := S754_finite false 6755399441055744 (-53).
Definition f_0_25 : Float64.float64 := S754_finite false 4503599627370496 (-54).
Definition f_0_40 : Float64.float64 := S754_finite false 7205759403792794 (-54).
Definition f_0_60 : Float64.float64 := S754_finite false 5404319552844595 (-53).
Definition f_0_39 : Float64.float64 := S754_finite false 7025615418697974 (-54).
Definition f_0_61 : Float64.float64 := S754_finite false 5494391545392005 (-53).
Definition f_minus_0_5 : Float64.float64 := S754_finite true 4503599627370496 (-53).

(** A fitted classifier answering [(p_bad, p_good)] for every row. *)
Definition constant_classifier (p_bad p_good : Float64.float64) : Artifact :=
  {| truth_value := Return true;
     predict_proba := fun x => Return (map (fun _ => [p_bad; p_good]) x) |}.

(** A classifier whose inference raises [e]. *)
Definition failing_classifier (e : exn) : Artifact :=
  {| truth_value := Return true; predict_proba := fun _ => Raise e |}.

(** A classifier answering one column only. *)
Definition one_column_classifier (p : Float64.float64) : Artifact :=
  {| truth_value := Return true;
     predict_proba := fun x => Return (map (fun _ => [p]) x) |}.

(** An object with [predict_proba] whose [bool()] is [False], as an
    ensemble reporting [len() == 0]. *)
Definition falsy_classifier : Artifact :=
  {| truth_value := Return false;
     predict_proba := fun x => Return (map (fun _ => [f_0_18; f_0_82]) x) |}.

(** A classifier pickled before it was fitted: [len()] of the ensemble
    reads the missing [estimators_] and raises. *)
Definition unfitted_classifier : Artifact :=
  {| truth_value :=
       Raise (PyError "AttributeError"
                "'RandomForestClassifier' object has no attribute 'estimators_'");
     predict_proba := fun _ =>
       Raise (PyError "NotFittedError"
                "This RandomForestClassifier instance is not fitted yet.") |}.

(** Disks: no model file; a model file holding [o]; a file that does not
    unpickle. *)
Definition fs_absent : FileSystem :=
  {| path_exists := fun _ => false;
     joblib_load := fun _ =>
       Raise (PyError "FileNotFoundError" "No such file or directory") |}.

Definition fs_holding (o : PyObject) : FileSystem :=
  {| path_exists := fun path => String.eqb path MODEL_PATH;
     joblib_load := fun _ => Return o |}.

Definition fs_corrupt : FileSystem :=
  {| path_exists := fun path => String.eqb path MODEL_PATH;
     joblib_load := fun _ =>
       Raise (PyError "UnpicklingError" "invalid load key, 'x'.") |}.

(** The process once start-up has run on a disk. *)
Definition started (fs : FileSystem) : World := snd (lifespan fs boot).

Definition request (mp td : Z) : TenantScoreRequest :=
  {| missedPeriods := mp; totalDisputes := td |}.

(* ===================================================================== *)
(** ** Rounding: a product that is at most [K * 2^t] stays so *)
(* ===================================================================== *)

(** [digits2_pos m] is the number of bits of [m]. *)
Lemma digits2_pos_bounds (m : positive) :
  2 ^ (Zpos (digits2_pos m) - 1) <= Zpos m < 2 ^ Zpos (digits2_pos m).
Proof.
  induction m as [m IH | m IH |]; cbn [digits2_pos].
  - rewrite Pos2Z.inj_succ.
    replace (Z.succ (Zpos (digits2_pos m)) - 1) with (Z.succ (Zpos (digits2_pos m) - 1)) by lia.
    rewrite !Z.pow_succ_r by lia. lia.
  - rewrite Pos2Z.inj_succ.
    replace (Z.succ (Zpos (digits2_pos m)) - 1) with (Z.succ (Zpos (digits2_pos m) - 1)) by lia.
    rewrite !Z.pow_succ_r by lia. lia.
  - cbn. lia.
Qed.

(** One shift halves the mantissa, rounding down. *)
Lemma shr_1_rel (r : shr_record) : shr_rel 1 r (shr_1 r).
Proof.
  destruct r as [m b s]. unfold shr_rel, inexact. cbn [shr_m shr_r shr_s].
  intros Hm. rewrite Z.pow_1_r.
  destruct m as [| [p | p |] | p]; cbn [shr_1 shr_m shr_r shr_s]; try lia;
    (split; [lia | split; [lia |]]); intros H1 H2; try lia;
    rewrite H1 in H2; discriminate.
Qed.

Lemma shr_rel_trans (k1 k2 : Z) (r r' r'' : shr_record) :
  0 <= k1 -> 0 <= k2 ->
  shr_rel k1 r r' -> shr_rel k2 r' r'' -> shr_rel (k1 + k2) r r''.
Proof.
  intros Hk1 Hk2 H1 H2 Hm.
  destruct (H1 Hm) as (Hm' & Hle1 & Hlt1).
  destruct (H2 Hm') as (Hm'' & Hle2 & Hlt2).
  rewrite Z.pow_add_r by assumption.
  assert (Hp1 : 0 < 2 ^ k1) by (apply Z.pow_pos_nonneg; lia).
  assert (Hp2 : 0 < 2 ^ k2) by (apply Z.pow_pos_nonneg; lia).
  split; [assumption | split].
  - nia.
  - intros Hr Hr''. destruct (inexact r') eqn:Hr'.
    + specialize (Hlt1 Hr eq_refl). nia.
    + specialize (Hlt2 eq_refl Hr''). nia.
Qed.

(** [p] shifts divide the mantissa by [2^p], rounding down. *)
Lemma iter_pos_shr_rel (p : positive) :
  forall r, shr_rel (Zpos p) r (iter_pos shr_1 p r).
Proof.
  induction p as [p IH | p IH |]; intros r; cbn [iter_pos].
  - replace (Zpos p~1) with (1 + (Zpos p + Zpos p)) by lia.
    apply shr_rel_trans with (r' := shr_1 r); try lia.
    + apply shr_1_rel.
    + apply shr_rel_trans with (r' := iter_pos shr_1 p (shr_1 r)); try lia; apply IH.
  - replace (Zpos p~0) with (Zpos p + Zpos p) by lia.
    apply shr_rel_trans with (r' := iter_pos shr_1 p r); try lia; apply IH.
  - apply shr_1_rel.
Qed.

Lemma shr_rel_refl (r : shr_record) : shr_rel 0 r r.
Proof.
  intros Hm. rewrite Z.pow_0_r. split; [assumption | split; [lia |]].
  intros H1 H2. rewrite H1 in H2. discriminate.
Qed.

Lemma shr_spec (r : shr_record) (e n : Z) :
  exists k, 0 <= k /\ snd (shr r e n) = e + k /\ k = Z.max n 0
            /\ shr_rel k r (fst (shr r e n)).
Proof.
  destruct n as [| p | p]; cbn [shr fst snd].
  - exists 0. split; [lia | split; [lia | split; [lia | apply shr_rel_refl]]].
  - exists (Zpos p). split; [lia | split; [reflexivity | split; [lia |]]].
    apply iter_pos_shr_rel.
  - exists 0. split; [lia | split; [lia | split; [lia | apply shr_rel_refl]]].
Qed.

(** Rounding to nearest even adds at most one unit, and none when no bit
    was lost. *)
Lemma round_nearest_even_spec (r : shr_record) :
  shr_m r <= round_nearest_even (shr_m r) (loc_of_shr_record r) <= shr_m r + 1
  /\ (inexact r = false ->
      round_nearest_even (shr_m r) (loc_of_shr_record r) = shr_m r).
Proof.
  destruct r as [m [|] [|]]; unfold inexact; cbn; try destruct (Z.even m);
    repeat split; try lia; try discriminate.
Qed.

(** The exponent chosen for a mantissa below [K * 2^(t - e)], [K] of at
    most 53 bits, is at most [t]. *)
Lemma fexp_digits_le (m K t e : Z) :
  0 <= m -> 0 <= K < 2 ^ 53 -> e <= t -> -1074 <= t ->
  m <= K * 2 ^ (t - e) ->
  fexp 53 1024 (Zdigits2 m + e) <= t.
Proof.
  intros Hm HK Het Ht Hle. unfold fexp, emin.
  destruct m as [| p | p]; cbn [Zdigits2]; [lia | | lia].
  pose proof (digits2_pos_bounds p) as [Hd _].
  assert (Hpow : 2 ^ (Zpos (digits2_pos p) - 1) < 2 ^ (53 + (t - e))).
  { rewrite Z.pow_add_r by lia.
    assert (0 < 2 ^ (t - e)) by (apply Z.pow_pos_nonneg; lia). nia. }
  apply Z.pow_lt_mono_r_iff in Hpow; lia.
Qed.

Lemma scale_down (a K t e k : Z) :
  0 <= k -> e + k <= t ->
  a * 2 ^ k <= K * 2 ^ (t - e) -> a <= K * 2 ^ (t - (e + k)).
Proof.
  intros Hk Het H.
  replace (t - e) with ((t - (e + k)) + k) in H by lia.
  rewrite Z.pow_add_r in H by lia.
  assert (0 < 2 ^ k) by (apply Z.pow_pos_nonneg; lia).
  nia.
Qed.

Lemma scale_down_lt (a K t e k : Z) :
  0 <= k -> e + k <= t ->
  a * 2 ^ k < K * 2 ^ (t - e) -> a < K * 2 ^ (t - (e + k)).
Proof.
  intros Hk Het H.
  replace (t - e) with ((t - (e + k)) + k) in H by lia.
  rewrite Z.pow_add_r in H by lia.
  assert (0 < 2 ^ k) by (apply Z.pow_pos_nonneg; lia).
  nia.
Qed.

(** Rounding is monotone at a representable bound: a positive mantissa
    whose value [mx * 2^ex] is at most [K * 2^t] rounds to zero or to a
    finite float of value at most [K * 2^t]; it does not overflow. *)
Lemma binary_round_aux_bounded (sx : bool) (mx : positive) (ex K t : Z) :
  0 <= K < 2 ^ 53 -> ex <= t -> -1074 <= t <= 971 ->
  Zpos mx <= K * 2 ^ (t - ex) ->
  binary_round_aux 53 1024 sx (Zpos mx) ex loc_Exact = S754_zero sx
  \/ exists m e,
       binary_round_aux 53 1024 sx (Zpos mx) ex loc_Exact = S754_finite sx m e
       /\ e <= t /\ Zpos m <= K * 2 ^ (t - e).
Proof.
  intros HK Hex Ht Hle.
  unfold binary_round_aux, shr_fexp.
  pose proof (fexp_digits_le (Zpos mx) K t ex ltac:(lia) HK Hex ltac:(lia) Hle) as Hf1.
  set (r0 := shr_record_of_loc (Zpos mx) loc_Exact).
  set (n1 := fexp 53 1024 (Zdigits2 (Zpos mx) + ex) - ex) in *.
  destruct (shr_spec r0 ex n1) as (k1 & Hk1 & He1 & Hmax1 & Hrel1).
  destruct (shr r0 ex n1) as [r1 e1]. cbn [fst snd] in He1, Hrel1.
  destruct (Hrel1 ltac:(cbn; lia)) as (Hm1 & Hle1 & Hlt1).
  assert (He1t : e1 <= t) by lia.
  pose proof (round_nearest_even_spec r1) as [Hrne Hexact].
  set (m2 := round_nearest_even (shr_m r1) (loc_of_shr_record r1)) in *.
  assert (Hm2 : m2 <= K * 2 ^ (t - e1)).
  { subst e1. destruct (inexact r1) eqn:Hi.
    - specialize (Hlt1 eq_refl eq_refl). cbn [r0 shr_record_of_loc shr_m] in Hlt1.
      assert (shr_m r1 < K * 2 ^ (t - (ex + k1))) by (apply scale_down_lt; lia).
      lia.
    - rewrite (Hexact eq_refl). cbn [r0 shr_record_of_loc shr_m] in Hle1.
      apply scale_down; lia. }
  assert (Hm2pos : 0 <= m2) by lia.
  pose proof (fexp_digits_le m2 K t e1 Hm2pos HK He1t ltac:(lia) Hm2) as Hf2.
  set (r2 := shr_record_of_loc m2 loc_Exact).
  set (n2 := fexp 53 1024 (Zdigits2 m2 + e1) - e1) in *.
  destruct (shr_spec r2 e1 n2) as (k2 & Hk2 & He2 & Hmax2 & Hrel2).
  destruct (shr r2 e1 n2) as [r3 e3]. cbn [fst snd] in He2, Hrel2.
  destruct (Hrel2 ltac:(cbn; lia)) as (Hm3 & Hle3 & _).
  cbn [r2 shr_record_of_loc shr_m] in Hle3.
  assert (He3t : e3 <= t) by lia.
  assert (Hm3le : shr_m r3 <= K * 2 ^ (t - e3)).
  { subst e3. apply scale_down; lia. }
  destruct (shr_m r3) as [| m3 | m3]; [left; reflexivity | right | lia].
  exists m3, e3.
  replace (e3 <=? 1024 - 53) with true by (symmetry; apply Z.leb_le; lia).
  auto.
Qed.

(** A float in [0, 1] is a zero or [m * 2^e] with [m <= 2^-e]. *)
Lemma probability_cases (p : Float64.float64) :
  Float64.is_probability p = true ->
  (exists s, p = S754_zero s)
  \/ (exists m e, p = S754_finite false m e /\ e <= -52 /\ Zpos m <= 2 ^ (- e)).
Proof.
  unfold Float64.is_probability, Float64.valid, Float64.leb, SFleb.
  intros H. apply andb_prop in H as [H H1]. apply andb_prop in H as [Hv H0].
  destruct p as [s | s | | s m e];
    unfold SFcompare, Float64.zero, Float64.one in H0, H1.
  - left. exists s. reflexivity.
  - destruct s; discriminate.
  - discriminate.
  - right. destruct s; [discriminate |]. exists m, e.
    split; [reflexivity |].
    cbn [valid_binary] in Hv. unfold bounded, canonical_mantissa in Hv.
    apply andb_prop in Hv as [Hc _]. apply Z.eqb_eq in Hc.
    unfold fexp, emin, Float64.prec, Float64.emax in Hc.
    pose proof (digits2_pos_bounds m) as [_ Hd].
    assert (Hdig : Zpos (digits2_pos m) <= 53) by lia.
    assert (Hm53 : Zpos m < 2 ^ 53).
    { eapply Z.lt_le_trans; [exact Hd |]. apply Z.pow_le_mono_r; lia. }
    rewrite Pos.compare_cont_spec in H1. cbn [Pos.switch_Eq] in H1.
    destruct (Z.compare_spec e (-52)) as [He | He | He]; try discriminate.
    + subst e. split; [lia |].
      destruct (Pos.compare_spec m 4503599627370496) as [Hm | Hm | Hm];
        try discriminate.
      * subst m. cbn. lia.
      * apply Pos2Z.pos_lt_pos in Hm. cbn. lia.
    + split; [lia |]. apply Z.lt_le_incl.
      eapply Z.lt_le_trans; [exact Hm53 |]. apply Z.pow_le_mono_r; lia.
Qed.

(** [p * 100] for [p] in [0, 1] is a zero or a positive float of value at
    most [25 * 2^2]. *)
Lemma mul_hundred_cases (p : Float64.float64) :
  Float64.is_probability p = true ->
  (exists s, Float64.mul p (Float64.of_int 100) = S754_zero s)
  \/ (exists m e,
        Float64.mul p (Float64.of_int 100) = S754_finite false m e
        /\ e <= 2 /\ Zpos m <= 25 * 2 ^ (2 - e)).
Proof.
  intros Hp. destruct (probability_cases p Hp) as [[s ->] | (m & e & -> & He & Hm)].
  - left. exists (xorb s false). reflexivity.
  - change (Float64.of_int 100) with Float64.hundred.
    unfold Float64.mul, Float64.hundred. cbn [SFmul xorb].
    destruct (binary_round_aux_bounded false (m * 7036874417766400) (e + -46) 25 2)
      as [Hz | (m' & e' & Hr & He' & Hm')]; try lia.
    + replace (2 - (e + -46)) with (48 + - e) by lia.
      rewrite Z.pow_add_r by lia. rewrite Pos2Z.inj_mul.
      change (Zpos 7036874417766400) with (25 * 2 ^ 48). nia.
    + left. exists false. exact Hz.
    + right. exists m', e'. auto.
Qed.

(** On floats that are not negative, truncation toward zero is the floor. *)
Lemma to_int_floor_nonneg (x : Float64.float64) (n : Z) :
  (forall m e, x <> S754_finite true m e) ->
  Float64.to_int x = Return n -> Float64.floor x = Some n.
Proof.
  intros Hs. unfold Float64.floor.
  destruct x as [s | s | | s m e]; cbn; try discriminate.
  - intros H. injection H as <-. reflexivity.
  - destruct s; [exfalso; eapply Hs; reflexivity |].
    intros H. injection H as <-. f_equal.
    destruct e as [| q | q]; cbn [Float64.trunc_magnitude cond_Zopp Qfloor].
    + apply Z.div_1_r.
    + rewrite Z.div_1_r, Z.shiftl_mul_pow2 by lia. reflexivity.
    + rewrite Z.shiftr_div_pow2 by lia. rewrite Pos2Z.inj_pow. reflexivity.
Qed.

(** [int(p * 100)] for a probability [p]: it returns, it is the floor of
    the product, and it lies between 0 and 100. *)
Lemma probability_score (p : Float64.float64) :
  Float64.is_probability p = true ->
  exists s, Float64.to_int (Float64.mul p (Float64.of_int 100)) = Return s
            /\ Float64.floor (Float64.mul p (Float64.of_int 100)) = Some s
            /\ 0 <= s <= 100.
Proof.
  intros Hp.
  destruct (mul_hundred_cases p Hp) as [[s Hz] | (m & e & Hr & He & Hm)].
  - exists 0. rewrite Hz. cbn. repeat split; lia.
  - exists (Float64.trunc_magnitude m e).
    assert (Hi : Float64.to_int (Float64.mul p (Float64.of_int 100))
                 = Return (Float64.trunc_magnitude m e)) by (rewrite Hr; reflexivity).
    split; [exact Hi | split].
    + apply to_int_floor_nonneg; [| exact Hi]. rewrite Hr. discriminate.
    + destruct e as [| q | q]; cbn [Float64.trunc_magnitude].
      * cbn in Hm. lia.
      * rewrite Z.shiftl_mul_pow2 by lia.
        replace 100 with (25 * 2 ^ 2) by reflexivity.
        replace 2 with ((2 - Zpos q) + Zpos q) at 4 by lia.
        rewrite Z.pow_add_r by lia.
        assert (0 < 2 ^ Zpos q) by (apply Z.pow_pos_nonneg; lia). nia.
      * rewrite Z.shiftr_div_pow2 by lia.
        assert (Hq : 0 < 2 ^ Zpos q) by (apply Z.pow_pos_nonneg; lia).
        split; [apply Z.div_pos; lia |].
        replace (2 - Zneg q) with (2 + Zpos q) in Hm by lia.
        rewrite Z.pow_add_r in Hm by lia. change (2 ^ 2) with 4 in Hm.
        apply Z.div_le_upper_bound; [lia | nia].
Qed.

(* ===================================================================== *)
(** ** Rounding to nearest is monotone, and so is the score *)
(* ===================================================================== *)

Lemma shr_1_represents (rec : shr_record) (N D : Z) :
  0 < D -> 0 <= shr_m rec ->
  represents rec N D -> represents (shr_1 rec) N (2 * D).
Proof.
  destruct rec as [m r s]. unfold represents. cbn [shr_m shr_r shr_s].
  intros HD Hm H.
  destruct m as [| [p | p |] | p]; try lia;
    destruct r, s; cbn [shr_1 shr_m shr_r shr_s orb]; nia.
Qed.

Lemma shr_1_nonneg (rec : shr_record) : 0 <= shr_m rec -> 0 <= shr_m (shr_1 rec).
Proof.
  destruct rec as [m r s]. cbn [shr_m].
  destruct m as [| [p | p |] | p]; cbn; lia.
Qed.

Lemma iter_pos_represents (p : positive) :
  forall rec N D,
    0 < D -> 0 <= shr_m rec -> represents rec N D ->
    0 <= shr_m (iter_pos shr_1 p rec)
    /\ represents (iter_pos shr_1 p rec) N (2 ^ Zpos p * D).
Proof.
  induction p as [p IH | p IH |]; intros rec N D HD Hm H; cbn [iter_pos].
  - pose proof (shr_1_nonneg rec Hm) as Hm1.
    pose proof (shr_1_represents rec N D HD Hm H) as H1.
    destruct (IH _ N (2 * D) ltac:(lia) Hm1 H1) as [Hm2 H2].
    assert (0 < 2 ^ Zpos p) by (apply Z.pow_pos_nonneg; lia).
    destruct (IH _ N (2 ^ Zpos p * (2 * D)) ltac:(nia) Hm2 H2) as [Hm3 H3].
    split; [exact Hm3 |].
    replace (2 ^ Zpos p~1 * D) with (2 ^ Zpos p * (2 ^ Zpos p * (2 * D))); [exact H3 |].
    replace (Zpos p~1) with (Zpos p + Zpos p + 1) by lia.
    rewrite !Z.pow_add_r by lia. ring.
  - destruct (IH _ N D HD Hm H) as [Hm2 H2].
    assert (0 < 2 ^ Zpos p) by (apply Z.pow_pos_nonneg; lia).
    destruct (IH _ N (2 ^ Zpos p * D) ltac:(nia) Hm2 H2) as [Hm3 H3].
    split; [exact Hm3 |].
    replace (2 ^ Zpos p~0 * D) with (2 ^ Zpos p * (2 ^ Zpos p * D)); [exact H3 |].
    replace (Zpos p~0) with (Zpos p + Zpos p) by lia.
    rewrite !Z.pow_add_r by lia. ring.
  - split; [apply shr_1_nonneg; exact Hm |].
    change (2 ^ 1 * D) with (2 * D). apply shr_1_represents; assumption.
Qed.

Lemma round_nearest_even_is_rne (rec : shr_record) (N D : Z) :
  0 < D -> represents rec N D ->
  is_rne (round_nearest_even (shr_m rec) (loc_of_shr_record rec)) N D.
Proof.
  destruct rec as [m r s]. unfold represents, is_rne. cbn [shr_m shr_r shr_s].
  intros HD H. destruct r, s; cbn [loc_of_shr_record round_nearest_even].
  - split; [lia | intros; lia].
  - destruct (Z.even m) eqn:He.
    + split; [lia | intros _; exact He].
    + split; [lia | intros _].
      rewrite Z.even_add, He. reflexivity.
  - split; [lia | intros; lia].
  - split; [lia | intros; lia].
Qed.

Lemma is_rne_monotone (n1 N1 D1 n2 N2 D2 : Z) :
  0 < D1 -> 0 < D2 ->
  is_rne n1 N1 D1 -> is_rne n2 N2 D2 ->
  N1 * D2 <= N2 * D1 -> n1 <= n2.
Proof.
  intros HD1 HD2 [H1 T1] [H2 T2] Hle.
  destruct (Z_le_gt_dec n1 n2) as [| Hgt]; [assumption | exfalso].
  assert (Ha : (2 * n1 - 1) * D1 <= 2 * N1) by lia.
  assert (Hb : 2 * N2 <= (2 * n2 + 1) * D2) by lia.
  assert (Hc : (2 * n2 + 1) * D1 <= (2 * n1 - 1) * D1) by nia.
  assert (Hd : (2 * n2 + 1) * D1 * D2 <= 2 * N1 * D2) by nia.
  assert (He : 2 * N2 * D1 <= (2 * n2 + 1) * D2 * D1) by nia.
  assert (Hf : 2 * N1 * D2 = (2 * n2 + 1) * D1 * D2) by nia.
  assert (Hg : 2 * N1 = (2 * n2 + 1) * D1) by nia.
  assert (Hh : n1 = n2 + 1) by nia.
  assert (Hi : 2 * N2 * D1 = (2 * n2 + 1) * D2 * D1) by nia.
  assert (Hj : 2 * N2 = (2 * n2 + 1) * D2) by nia.
  assert (E1 : Z.even n1 = true) by (apply T1; subst n1; lia).
  assert (E2 : Z.even n2 = true) by (apply T2; lia).
  subst n1. rewrite Z.even_add, E2 in E1. discriminate.
Qed.

Lemma is_rne_integer (c D : Z) : 0 < D -> is_rne c (c * D) D.
Proof.
  intros HD. unfold is_rne. replace (c * D - c * D) with 0 by ring.
  cbn. split; lia.
Qed.

Lemma represents_below (rec : shr_record) (N D : Z) :
  0 < D -> represents rec N D -> shr_m rec * D <= N.
Proof.
  destruct rec as [m r s]. unfold represents. cbn [shr_m shr_r shr_s].
  intros HD H. destruct r, s; nia.
Qed.

Lemma shr_represents (rec : shr_record) (e k N D : Z) :
  0 <= k -> 0 < D -> 0 <= shr_m rec -> represents rec N D ->
  snd (shr rec e k) = e + k
  /\ 0 <= shr_m (fst (shr rec e k))
  /\ represents (fst (shr rec e k)) N (2 ^ k * D).
Proof.
  intros Hk HD Hm H. destruct k as [| p | p]; [| | lia]; cbn [shr fst snd].
  - split; [lia | split; [exact Hm |]]. rewrite Z.pow_0_r, Z.mul_1_l. exact H.
  - split; [reflexivity |]. apply iter_pos_represents; assumption.
Qed.

(** What rounding computes: the mantissa at the exponent [T] of the format is
    the integer nearest to [M * 2^E / 2^T], ties to even; it is kept as it is,
    or halved once when it reached [2^53]. *)
Lemma binary_round_aux_rne (sx : bool) (M : positive) (E : Z) :
  E <= fexp 53 1024 (Zpos (digits2_pos M) + E) ->
  exists n,
    0 <= n <= 2 ^ 53
    /\ is_rne n (Zpos M) (2 ^ (fexp 53 1024 (Zpos (digits2_pos M) + E) - E))
    /\ ((n = 0
         /\ binary_round_aux 53 1024 sx (Zpos M) E loc_Exact = S754_zero sx)
        \/ exists m3 e3,
             fexp 53 1024 (Zpos (digits2_pos M) + E) <= e3
                <= fexp 53 1024 (Zpos (digits2_pos M) + E) + 1
             /\ n = Zpos m3 * 2 ^ (e3 - fexp 53 1024 (Zpos (digits2_pos M) + E))
             /\ binary_round_aux 53 1024 sx (Zpos M) E loc_Exact
                = (if e3 <=? 1024 - 53
                   then S754_finite sx m3 e3 else S754_infinity sx)).
Proof.
  intros HET.
  unfold binary_round_aux, shr_fexp. cbn [Zdigits2].
  set (T := fexp 53 1024 (Zpos (digits2_pos M) + E)) in *.
  assert (HTmin : -1074 <= T) by (unfold T, fexp, emin; lia).
  assert (HTd : Zpos (digits2_pos M) + E - 53 <= T) by (unfold T, fexp, emin; lia).
  set (r0 := shr_record_of_loc (Zpos M) loc_Exact).
  assert (Hr0 : represents r0 (Zpos M) 1) by (unfold represents; cbn; lia).
  destruct (shr_represents r0 E (T - E) (Zpos M) 1 ltac:(lia) ltac:(lia)
              ltac:(cbn; lia) Hr0) as (He1 & Hm1 & Hrep1).
  destruct (shr r0 E (T - E)) as [r1 e1]. cbn [fst snd] in He1, Hm1, Hrep1.
  rewrite Z.mul_1_r in Hrep1.
  assert (He1T : e1 = T) by lia. clear He1. subst e1.
  assert (HD : 0 < 2 ^ (T - E)) by (apply Z.pow_pos_nonneg; lia).
  pose proof (round_nearest_even_is_rne r1 (Zpos M) _ HD Hrep1) as Hrne.
  pose proof (round_nearest_even_spec r1) as [Hn_bounds _].
  pose proof (represents_below r1 (Zpos M) _ HD Hrep1) as Hbelow.
  set (n := round_nearest_even (shr_m r1) (loc_of_shr_record r1)) in *.
  assert (Hm1lt : shr_m r1 < 2 ^ 53).
  { pose proof (digits2_pos_bounds M) as [_ Hd].
    assert (Hpow : 2 ^ Zpos (digits2_pos M) <= 2 ^ (53 + (T - E)))
      by (apply Z.pow_le_mono_r; lia).
    rewrite Z.pow_add_r in Hpow by lia. nia. }
  exists n. split; [lia | split; [exact Hrne |]].
  clear Hbelow.
  destruct n as [| pn | pn] eqn:Hn; [| | lia].
  - left. split; [reflexivity |].
    cbn [Zdigits2 shr_record_of_loc].
    assert (Hk0 : fexp 53 1024 (0 + T) - T <= 0) by (unfold fexp, emin; lia).
    destruct (fexp 53 1024 (0 + T) - T) as [| q | q]; try lia; reflexivity.
  - right. cbn [Zdigits2 shr_record_of_loc].
    destruct (Z.eq_dec (Zpos pn) (2 ^ 53)) as [Heq | Hne].
    + exists 4503599627370496%positive, (T + 1).
      change (2 ^ 53) with (Zpos 9007199254740992) in Heq.
      injection Heq as ->.
      split; [lia | split].
      * replace (T + 1 - T) with 1 by lia. reflexivity.
      * change (digits2_pos 9007199254740992) with 54%positive.
        replace (fexp 53 1024 (54 + T) - T) with 1 by (unfold fexp, emin; lia).
        reflexivity.
    + exists pn, T.
      split; [lia | split].
      * rewrite Z.sub_diag. cbn. lia.
      * assert (Hdn : Zpos (digits2_pos pn) <= 53).
        { pose proof (digits2_pos_bounds pn) as [Hlo _].
          assert (Hlt : 2 ^ (Zpos (digits2_pos pn) - 1) < 2 ^ 53) by lia.
          apply Z.pow_lt_mono_r_iff in Hlt; lia. }
        assert (Hk2 : fexp 53 1024 (Zpos (digits2_pos pn) + T) - T <= 0)
          by (unfold fexp, emin; lia).
        destruct (fexp 53 1024 (Zpos (digits2_pos pn) + T) - T) as [| q | q];
          try lia; reflexivity.
Qed.

Lemma trunc_magnitude_shiftl (m : positive) (e : Z) :
  Float64.trunc_magnitude m e = Z.shiftl (Zpos m) e.
Proof.
  destruct e as [| q | q]; cbn [Float64.trunc_magnitude].
  - symmetry. apply Z.shiftl_0_r.
  - reflexivity.
  - reflexivity.
Qed.

Lemma shiftl_monotone (a b T : Z) : 0 <= a <= b -> Z.shiftl a T <= Z.shiftl b T.
Proof.
  intros Hab. destruct (Z_le_gt_dec 0 T) as [HT | HT].
  - rewrite !Z.shiftl_mul_pow2 by assumption.
    apply Z.mul_le_mono_nonneg_r; [apply Z.pow_nonneg |]; lia.
  - rewrite !Z.shiftl_div_pow2 by lia.
    apply Z.div_le_mono; [apply Z.pow_pos_nonneg |]; lia.
Qed.

(** The integer a rounded positive number converts to, through the nearest
    mantissa [n] at the exponent [T] of the format. *)
Lemma round_to_int_rne (M : positive) (E s : Z) :
  E <= fexp 53 1024 (Zpos (digits2_pos M) + E) ->
  Float64.to_int (binary_round_aux 53 1024 false (Zpos M) E loc_Exact)
  = Return s ->
  exists n,
    0 <= n <= 2 ^ 53
    /\ is_rne n (Zpos M) (2 ^ (fexp 53 1024 (Zpos (digits2_pos M) + E) - E))
    /\ s = Z.shiftl n (fexp 53 1024 (Zpos (digits2_pos M) + E)).
Proof.
  intros HT Hs.
  destruct (binary_round_aux_rne false M E HT) as (n & Hn & Hrne & Hres).
  exists n. split; [exact Hn | split; [exact Hrne |]].
  destruct Hres as [[-> Hr] | (m3 & e3 & He3 & -> & Hr)]; rewrite Hr in Hs.
  - injection Hs as <-. symmetry. apply Z.shiftl_0_l.
  - destruct (e3 <=? 1024 - 53); [| discriminate].
    cbn [Float64.to_int cond_Zopp] in Hs. injection Hs as <-.
    rewrite trunc_magnitude_shiftl, <- Z.shiftl_mul_pow2 by lia.
    rewrite Z.shiftl_shiftl by lia. f_equal. lia.
Qed.

(** Rounding, then truncating, is monotone: of two positive numbers
    [M1 * 2^E1 <= M2 * 2^E2] (compared at a common exponent [c]) whose
    rounded values are finite, the first does not convert to a larger
    integer than the second. *)
Lemma round_then_truncate_monotone (M1 M2 : positive) (E1 E2 c s1 s2 : Z) :
  c <= E1 -> c <= E2 ->
  Zpos M1 * 2 ^ (E1 - c) <= Zpos M2 * 2 ^ (E2 - c) ->
  E1 <= fexp 53 1024 (Zpos (digits2_pos M1) + E1) ->
  E2 <= fexp 53 1024 (Zpos (digits2_pos M2) + E2) ->
  Float64.to_int (binary_round_aux 53 1024 false (Zpos M1) E1 loc_Exact)
  = Return s1 ->
  Float64.to_int (binary_round_aux 53 1024 false (Zpos M2) E2 loc_Exact)
  = Return s2 ->
  s1 <= s2.
Proof.
  intros Hc1 Hc2 Hle HT1 HT2 Hs1 Hs2.
  destruct (round_to_int_rne M1 E1 s1 HT1 Hs1) as (n1 & Hn1 & Hrne1 & Hv1).
  destruct (round_to_int_rne M2 E2 s2 HT2 Hs2) as (n2 & Hn2 & Hrne2 & Hv2).
  pose proof (digits2_pos_bounds M1) as [Hlo1 Hhi1].
  pose proof (digits2_pos_bounds M2) as [Hlo2 Hhi2].
  set (d1 := Zpos (digits2_pos M1)) in *.
  set (d2 := Zpos (digits2_pos M2)) in *.
  set (T1 := fexp 53 1024 (d1 + E1)) in *.
  set (T2 := fexp 53 1024 (d2 + E2)) in *.
  assert (Hd1 : 0 < d1) by (unfold d1; lia).
  assert (Hd2 : 0 < d2) by (unfold d2; lia).
  (* the magnitudes are ordered, hence the exponents of the format *)
  assert (Hmu : d1 + E1 <= d2 + E2).
  { assert (Hp : 2 ^ (d1 - 1 + (E1 - c)) < 2 ^ (d2 + (E2 - c))).
    { rewrite !Z.pow_add_r by lia.
      assert (0 < 2 ^ (E1 - c)) by (apply Z.pow_pos_nonneg; lia).
      assert (0 < 2 ^ (E2 - c)) by (apply Z.pow_pos_nonneg; lia).
      nia. }
    apply Z.pow_lt_mono_r_iff in Hp; lia. }
  assert (HT12 : T1 <= T2) by (unfold T1, T2, fexp, emin; lia).
  assert (Hn12 : n1 <= n2 * 2 ^ (T2 - T1)).
  { destruct (Z.eq_dec T1 T2) as [Heq | Hne].
    - rewrite <- Heq, Z.sub_diag, Z.pow_0_r, Z.mul_1_r.
      rewrite <- Heq in Hrne2.
      apply (is_rne_monotone n1 (Zpos M1) (2 ^ (T1 - E1))
                             n2 (Zpos M2) (2 ^ (T1 - E2)));
        try (apply Z.pow_pos_nonneg; lia); try assumption.
      assert (HA : 0 < 2 ^ (E1 - c)) by (apply Z.pow_pos_nonneg; lia).
      assert (HB : 0 < 2 ^ (E2 - c)) by (apply Z.pow_pos_nonneg; lia).
      assert (HU : 0 < 2 ^ (T1 - E1)) by (apply Z.pow_pos_nonneg; lia).
      assert (HV : 0 < 2 ^ (T1 - E2)) by (apply Z.pow_pos_nonneg; lia).
      assert (Hsame : 2 ^ (E1 - c) * 2 ^ (T1 - E1) = 2 ^ (E2 - c) * 2 ^ (T1 - E2)).
      { rewrite <- !Z.pow_add_r by lia. f_equal. lia. }
      apply (Z.mul_le_mono_pos_r _ _ (2 ^ (E2 - c)) HB).
      replace (Zpos M1 * 2 ^ (T1 - E2) * 2 ^ (E2 - c))
        with (Zpos M1 * 2 ^ (E1 - c) * 2 ^ (T1 - E1)) by (rewrite <- !Z.mul_assoc, Hsame; ring).
      replace (Zpos M2 * 2 ^ (T1 - E1) * 2 ^ (E2 - c))
        with (Zpos M2 * 2 ^ (E2 - c) * 2 ^ (T1 - E1)) by ring.
      apply Z.mul_le_mono_nonneg_r; lia.
    - assert (HT2eq : T2 = d2 + E2 - 53) by (unfold T1, T2, fexp, emin in *; lia).
      assert (Hn2big : 2 ^ 52 <= n2).
      { apply (is_rne_monotone (2 ^ 52) (2 ^ 52 * 2 ^ (T2 - E2)) (2 ^ (T2 - E2))
                               n2 (Zpos M2) (2 ^ (T2 - E2)));
          try (apply Z.pow_pos_nonneg; lia); try assumption.
        - apply is_rne_integer. apply Z.pow_pos_nonneg; lia.
        - apply Z.mul_le_mono_nonneg_r; [apply Z.pow_nonneg; lia |].
          rewrite <- Z.pow_add_r by lia.
          replace (52 + (T2 - E2)) with (d2 - 1) by lia. exact Hlo2. }
      assert (Hstep : 2 ^ 53 <= 2 ^ 52 * 2 ^ (T2 - T1)).
      { rewrite <- Z.pow_add_r by lia. apply Z.pow_le_mono_r; lia. }
      assert (0 < 2 ^ (T2 - T1)) by (apply Z.pow_pos_nonneg; lia).
      nia. }
  assert (Hsh : Z.shiftl n2 T2 = Z.shiftl (n2 * 2 ^ (T2 - T1)) T1).
  { rewrite <- Z.shiftl_mul_pow2 by lia. rewrite Z.shiftl_shiftl by lia.
    f_equal. lia. }
  rewrite Hv1, Hv2, Hsh. apply shiftl_monotone. lia.
Qed.

(** A valid finite float is in canonical form. *)
Lemma valid_canonical (s : bool) (m : positive) (e : Z) :
  Float64.valid (S754_finite s m e) = true ->
  -1074 <= e
  /\ Zpos m < 2 ^ 53
  /\ (-1074 < e -> 2 ^ 52 <= Zpos m).
Proof.
  unfold Float64.valid. cbn [valid_binary]. unfold bounded, canonical_mantissa.
  intros Hv. apply andb_prop in Hv as [Hc _]. apply Z.eqb_eq in Hc.
  unfold fexp, emin, Float64.prec, Float64.emax in Hc.
  pose proof (digits2_pos_bounds m) as [Hlo Hhi].
  split; [lia | split].
  - eapply Z.lt_le_trans; [exact Hhi |]. apply Z.pow_le_mono_r; lia.
  - intros He. replace 52 with (Zpos (digits2_pos m) - 1) by lia. exact Hlo.
Qed.

(** [<=] on valid positive floats is [<=] on their values. *)
Lemma leb_values (mp mq : positive) (ep eq : Z) :
  Float64.valid (S754_finite false mp ep) = true ->
  Float64.valid (S754_finite false mq eq) = true ->
  Float64.leb (S754_finite false mp ep) (S754_finite false mq eq) = true ->
  Zpos mp * 2 ^ (ep - Z.min ep eq) <= Zpos mq * 2 ^ (eq - Z.min ep eq).
Proof.
  intros Hvp Hvq Hle.
  destruct (valid_canonical _ _ _ Hvp) as (Hep & Hmp & _).
  destruct (valid_canonical _ _ _ Hvq) as (Heq & _ & Hmq).
  unfold Float64.leb, SFleb, SFcompare in Hle.
  rewrite Pos.compare_cont_spec in Hle. cbn [Pos.switch_Eq] in Hle.
  destruct (Z.compare_spec ep eq) as [He | He | He]; try discriminate.
  - subst eq. rewrite Z.min_id, Z.sub_diag, Z.pow_0_r.
    destruct (Pos.compare_spec mp mq) as [Hm | Hm | Hm]; try discriminate.
    + subst. lia.
    + apply Pos2Z.pos_lt_pos in Hm. lia.
  - rewrite Z.min_l by lia. rewrite Z.sub_diag, Z.pow_0_r.
    specialize (Hmq ltac:(lia)).
    assert (Hpow : 2 ^ 1 <= 2 ^ (eq - ep)) by (apply Z.pow_le_mono_r; lia).
    change (2 ^ 1) with 2 in Hpow. nia.
Qed.

Lemma digits_times_hundred (m : positive) :
  53 <= Zpos (digits2_pos (m * 7036874417766400)).
Proof.
  pose proof (digits2_pos_bounds (m * 7036874417766400)) as [_ Hhi].
  assert (Hbig : 2 ^ 52 < 2 ^ Zpos (digits2_pos (m * 7036874417766400))).
  { eapply Z.le_lt_trans; [| exact Hhi].
    rewrite Pos2Z.inj_mul.
    change (Zpos 7036874417766400) with (25 * 2 ^ 48).
    change (2 ^ 52) with (16 * 2 ^ 48). nia. }
  apply Z.pow_lt_mono_r_iff in Hbig; lia.
Qed.

(** [int(p * 100)] is monotone on the probabilities. *)
Lemma score_monotone (p q : Float64.float64) :
  Float64.is_probability p = true ->
  Float64.is_probability q = true ->
  Float64.leb p q = true ->
  exists sp sq,
    Float64.to_int (Float64.mul p (Float64.of_int 100)) = Return sp
    /\ Float64.to_int (Float64.mul q (Float64.of_int 100)) = Return sq
    /\ 0 <= sp <= sq /\ sq <= 100.
Proof.
  intros Hp Hq Hle.
  destruct (probability_score p Hp) as (sp & Hsp & _ & Hrp).
  destruct (probability_score q Hq) as (sq & Hsq & _ & Hrq).
  exists sp, sq. split; [exact Hsp | split; [exact Hsq |]].
  split; [| lia]. split; [lia |].
  assert (Hvp : Float64.valid p = true).
  { unfold Float64.is_probability in Hp.
    apply andb_prop in Hp as [Hp _]. apply andb_prop in Hp as [Hp _]. exact Hp. }
  assert (Hvq : Float64.valid q = true).
  { unfold Float64.is_probability in Hq.
    apply andb_prop in Hq as [Hq _]. apply andb_prop in Hq as [Hq _]. exact Hq. }
  destruct (probability_cases p Hp) as [[s ->] | (mp & ep & -> & _ & _)].
  - cbn in Hsp. injection Hsp as <-. lia.
  - destruct (probability_cases q Hq) as [[s ->] | (mq & eq & -> & _ & _)];
      [discriminate |].
    pose proof (leb_values mp mq ep eq Hvp Hvq Hle) as Hval.
    change (Float64.of_int 100) with Float64.hundred in Hsp, Hsq.
    unfold Float64.mul, Float64.hundred, Float64.prec, Float64.emax in Hsp, Hsq.
    cbn [SFmul xorb] in Hsp, Hsq.
    apply (round_then_truncate_monotone
             (mp * 7036874417766400) (mq * 7036874417766400)
             (ep + -46) (eq + -46) (Z.min ep eq + -46) sp sq);
      try assumption; try lia.
    + replace (ep + -46 - (Z.min ep eq + -46)) with (ep - Z.min ep eq) by lia.
      replace (eq + -46 - (Z.min ep eq + -46)) with (eq - Z.min ep eq) by lia.
      rewrite !Pos2Z.inj_mul. nia.
    + pose proof (digits_times_hundred mp). unfold fexp, emin. lia.
    + pose proof (digits_times_hundred mq). unfold fexp, emin. lia.
Qed.


(** Rounding does not cross an integer: a number between two neighbouring
    integers converts, once rounded, to one of the two. *)
Lemma round_to_int_between (M : positive) (E s k : Z) :
  E <= fexp 53 1024 (Zpos (digits2_pos M) + E) ->
  fexp 53 1024 (Zpos (digits2_pos M) + E) <= 0 ->
  Float64.to_int (binary_round_aux 53 1024 false (Zpos M) E loc_Exact)
  = Return s ->
  k * 2 ^ (- E) <= Zpos M <= (k + 1) * 2 ^ (- E) ->
  k <= s <= k + 1.
Proof.
  intros HET HT0 Hs Hk.
  destruct (round_to_int_rne M E s HET Hs) as (n & Hn & Hrne & ->).
  set (T := fexp 53 1024 (Zpos (digits2_pos M) + E)) in *.
  assert (HD : 0 < 2 ^ (T - E)) by (apply Z.pow_pos_nonneg; lia).
  assert (HP : 0 < 2 ^ (- T)) by (apply Z.pow_pos_nonneg; lia).
  assert (Hsplit : 2 ^ (- E) = 2 ^ (- T) * 2 ^ (T - E)).
  { rewrite <- Z.pow_add_r by lia. f_equal. lia. }
  assert (Hlo : k * 2 ^ (- T) <= n).
  { apply (is_rne_monotone (k * 2 ^ (- T)) (k * 2 ^ (- T) * 2 ^ (T - E))
                           (2 ^ (T - E)) n (Zpos M) (2 ^ (T - E)));
      try assumption.
    - apply is_rne_integer. exact HD.
    - apply Z.mul_le_mono_nonneg_r; [lia |].
      rewrite <- Z.mul_assoc, <- Hsplit. lia. }
  assert (Hhi : n <= (k + 1) * 2 ^ (- T)).
  { apply (is_rne_monotone n (Zpos M) (2 ^ (T - E))
                           ((k + 1) * 2 ^ (- T))
                           ((k + 1) * 2 ^ (- T) * 2 ^ (T - E)) (2 ^ (T - E)));
      try assumption.
    - apply is_rne_integer. exact HD.
    - apply Z.mul_le_mono_nonneg_r; [lia |].
      rewrite <- Z.mul_assoc, <- Hsplit. lia. }
  rewrite Z.shiftl_div_pow2 by lia.
  split.
  - apply Z.div_le_lower_bound; lia.
  - apply Z.div_le_upper_bound; lia.
Qed.

(** The score of a probability against the exact arithmetic: it is the
    floor of the exact product [100 * p], or one more. *)
Lemma score_near_exact_floor (p : Float64.float64) :
  Float64.is_probability p = true ->
  exists s f,
    Float64.to_int (Float64.mul p (Float64.of_int 100)) = Return s
    /\ Float64.floor_of_exact_product p 100 = Some f
    /\ f <= s <= f + 1.
Proof.
  intros Hp.
  destruct (probability_score p Hp) as (s & Hs & _ & Hrange).
  destruct (probability_cases p Hp) as [[b ->] | (m & e & -> & He & Hm)].
  - exists s, 0. cbn in Hs. injection Hs as <-.
    split; [reflexivity | split; [reflexivity | lia]].
  - exists s, (Zpos m * 100 / 2 ^ (- e)).
    split; [exact Hs | split].
    + unfold Float64.floor_of_exact_product. cbn [Float64.to_Q option_map].
      destruct e as [| q | q]; try lia.
      cbn [cond_Zopp]. unfold Qfloor, Qmult, inject_Z. cbn [Qnum Qden].
      rewrite Pos.mul_1_r, Pos2Z.inj_pow. reflexivity.
    + change (Float64.of_int 100) with Float64.hundred in Hs.
      unfold Float64.mul, Float64.hundred, Float64.prec, Float64.emax in Hs.
      cbn [SFmul xorb] in Hs.
      assert (HP : 0 < 2 ^ (- e)) by (apply Z.pow_pos_nonneg; lia).
      assert (HM : Zpos (m * 7036874417766400) = Zpos m * 100 * 2 ^ 46)
        by (rewrite Pos2Z.inj_mul;
            change (Zpos 7036874417766400) with (100 * 2 ^ 46); ring).
      assert (HE : 2 ^ (- (e + -46)) = 2 ^ (- e) * 2 ^ 46)
        by (rewrite <- Z.pow_add_r by lia; f_equal; lia).
      apply (round_to_int_between (m * 7036874417766400) (e + -46) s).
      * pose proof (digits_times_hundred m). unfold fexp, emin. lia.
      * apply (fexp_digits_le (Zpos (m * 7036874417766400)) 100 0 (e + -46));
          try lia.
        replace (0 - (e + -46)) with (- (e + -46)) by lia.
        rewrite HM, HE. nia.
      * exact Hs.
      * rewrite HM, HE.
        pose proof (Z.mul_div_le (Zpos m * 100) (2 ^ (- e)) HP) as Hlo.
        pose proof (Z.mul_succ_div_gt (Zpos m * 100) (2 ^ (- e)) HP) as Hhi.
        nia.
Qed.


(** The product the handler truncates, against the exact one: for a
    probability [p], the value of the binary64 [p * 100] is within [2^-47]
    of [100] times the value of [p]. *)
Lemma product_error (p : Float64.float64) :
  Float64.is_probability p = true ->
  exists q q',
    Float64.to_Q p = Some q
    /\ Float64.to_Q (Float64.mul p (Float64.of_int 100)) = Some q'
    /\ (Qabs (q' - q * inject_Z 100) <= 1 # 140737488355328)%Q.
Proof.
  intros Hp.
  destruct (probability_cases p Hp) as [[b ->] | (m & e & -> & He & Hm)].
  - exists (0 # 1)%Q, (0 # 1)%Q.
    split; [reflexivity | split; [reflexivity |]]. unfold Qle. cbn. lia.
  - destruct e as [| qe | qe]; try lia.
    exists (Zpos m # 2 ^ qe)%Q.
    change (Float64.of_int 100) with Float64.hundred.
    unfold Float64.mul, Float64.hundred, Float64.prec, Float64.emax.
    cbn [SFmul xorb].
    set (M := (m * 7036874417766400)%positive).
    set (E := Zneg qe + -46).
    assert (HM : Zpos M = Zpos m * 100 * 2 ^ 46)
      by (unfold M; rewrite Pos2Z.inj_mul;
          change (Zpos 7036874417766400) with (100 * 2 ^ 46); ring).
    assert (HA : 0 < 2 ^ Zpos qe) by (apply Z.pow_pos_nonneg; lia).
    assert (HET : E <= fexp 53 1024 (Zpos (digits2_pos M) + E)).
    { pose proof (digits_times_hundred m). unfold fexp, emin, M, E. lia. }
    assert (HT46 : fexp 53 1024 (Zpos (digits2_pos M) + E) <= -46).
    { assert (HK : 0 <= 100 * 2 ^ 46 < 2 ^ 53) by (cbn; lia).
      assert (HEt : E <= -46) by (unfold E; lia).
      assert (Hbound : Zpos M <= 100 * 2 ^ 46 * 2 ^ (-46 - E)).
      { replace (-46 - E) with (Zpos qe) by (unfold E; lia).
        rewrite HM. replace (- Zneg qe) with (Zpos qe) in Hm by lia. nia. }
      apply (fexp_digits_le (Zpos M) (100 * 2 ^ 46) (-46) E
               ltac:(lia) HK HEt ltac:(lia) Hbound). }
    destruct (binary_round_aux_rne false M E HET) as (n & Hn & [Hrne _] & Hres).
    set (T := fexp 53 1024 (Zpos (digits2_pos M) + E)) in *.
    assert (HD : 0 < 2 ^ (T - E)) by (apply Z.pow_pos_nonneg; lia).
    assert (HDA : 2 ^ (T - E) * 2 ^ (- T - 46) = 2 ^ Zpos qe * 1).
    { rewrite <- Z.pow_add_r by (unfold E in *; lia).
      rewrite Z.mul_1_r. f_equal. unfold E. lia. }
    assert (HT : 0 < 2 ^ (- T - 46)) by (apply Z.pow_pos_nonneg; lia).
    destruct Hres as [[Hn0 Hr] | (m3 & e3 & He3 & Hn3 & Hr)].
    + exists (0 # 1)%Q. rewrite Hr. split; [reflexivity | split; [reflexivity |]].
      subst n. unfold Qle, Qabs, Qminus, Qplus, Qopp, Qmult, inject_Z.
      cbn [Qnum Qden]. rewrite !Pos2Z.inj_mul, Pos2Z.inj_pow.
      change (Zpos 140737488355328) with (2 * 2 ^ 46).
      rewrite HM in Hrne. nia.
    + assert (Hfin : (e3 <=? 1024 - 53) = true) by (apply Z.leb_le; lia).
      rewrite Hfin in Hr.
      destruct e3 as [| q3 | q3]; try lia.
      exists (Zpos m3 # 2 ^ q3)%Q. rewrite Hr.
      split; [reflexivity | split; [reflexivity |]].
      unfold Qle, Qabs, Qminus, Qplus, Qopp, Qmult, inject_Z.
      cbn [Qnum Qden]. rewrite !Pos2Z.inj_mul, !Pos2Z.inj_pow.
      change (Zpos 140737488355328) with (2 * 2 ^ 46).
      set (A := 2 ^ Zpos qe) in *. set (B := 2 ^ Zpos q3).
      set (P := 2 ^ (Zneg q3 - T)) in *.
      set (D := 2 ^ (T - E)) in *.
      assert (HB : 0 < B) by (apply Z.pow_pos_nonneg; lia).
      assert (HP : 0 < P) by (apply Z.pow_pos_nonneg; lia).
      assert (HPDB : P * D * B = A * 2 ^ 46).
      { unfold P, D, B, A. rewrite <- !Z.pow_add_r by (unfold E in *; lia).
        f_equal. unfold E. lia. }
      assert (HDle : D <= A).
      { unfold D, A. apply Z.pow_le_mono_r; unfold E; lia. }
      rewrite HM, Hn3 in Hrne.
      assert (Hscaled : 2 * Z.abs (Zpos m3 * P * D * B - Zpos m * 100 * 2 ^ 46 * B)
                        <= D * B).
      { replace (Zpos m3 * P * D * B - Zpos m * 100 * 2 ^ 46 * B)
          with ((Zpos m3 * P * D - Zpos m * 100 * 2 ^ 46) * B) by ring.
        rewrite Z.abs_mul, (Z.abs_eq B) by lia. nia. }
      replace (Zpos m3 * P * D * B) with (Zpos m3 * A * 2 ^ 46) in Hscaled
        by (transitivity (Zpos m3 * (P * D * B)); [rewrite HPDB |]; ring).
      replace (Zpos m3 * A * 2 ^ 46 - Zpos m * 100 * 2 ^ 46 * B)
        with ((Zpos m3 * A - Zpos m * 100 * B) * 2 ^ 46) in Hscaled by ring.
      rewrite Z.abs_mul, (Z.abs_eq (2 ^ 46)) in Hscaled by (cbn; lia).
      replace (Zpos m3 * (A * 1) + - (Zpos m * 100) * B)
        with (Zpos m3 * A - Zpos m * 100 * B) by ring.
      nia.
Qed.

(* ===================================================================== *)
(** ** The handler, path by path *)
(* ===================================================================== *)

Lemma categorize_table (s : Z) :
  exists c r,
    table_row s c r
    /\ categorize s = (category_name c, recommendation_name r).
Proof.
  unfold categorize. rewrite Z.gtb_ltb.
  destruct (Z.ltb_spec 75 s) as [Hhi | Hhi].
  - exists Safe, Approve. split; [constructor; assumption | reflexivity].
  - destruct (Z.ltb_spec s 40) as [Hlo | Hlo].
    + exists Risky, ReviewManually. split; [constructor; assumption | reflexivity].
    + exists Moderate, ReviewManually. split; [constructor; lia | reflexivity].
Qed.

Lemma table_row_functional (s : Z) c1 r1 c2 r2 :
  table_row s c1 r1 -> table_row s c2 r2 -> c1 = c2 /\ r1 = r2.
Proof.
  intros H1 H2. inversion H1; subst; inversion H2; subst; try lia; auto.
Qed.

Lemma predict_unset (w : World) (data : TenantScoreRequest) :
  app_state_model w = None ->
  predict_risk_score data w
  = (Raise (PyError "AttributeError" "'State' object has no attribute 'model'"), w).
Proof.
  intros Hw. unfold predict_risk_score, bind, get_model. rewrite Hw. reflexivity.
Qed.

Lemma predict_unavailable (w : World) (o : PyObject) (data : TenantScoreRequest) :
  app_state_model w = Some o -> truthy o = Return false ->
  predict_risk_score data w = (Raise model_not_loaded, w).
Proof.
  intros Hw Ho. unfold predict_risk_score, bind, get_model.
  rewrite Hw, Ho. reflexivity.
Qed.

Lemma predict_fast_path (w : World) (o : PyObject) (data : TenantScoreRequest) :
  app_state_model w = Some o -> truthy o = Return true ->
  (missedPeriods data =? 0) && (totalDisputes data =? 0) = true ->
  predict_risk_score data w = (Return perfect_record_response, w).
Proof.
  intros Hw Ho Hz. unfold predict_risk_score, bind, get_model.
  rewrite Hw, Ho, Hz. reflexivity.
Qed.

Lemma predict_model_path (w : World) (o : PyObject) (data : TenantScoreRequest) :
  app_state_model w = Some o -> truthy o = Return true ->
  (missedPeriods data =? 0) && (totalDisputes data =? 0) = false ->
  predict_risk_score data w
  = try_except (predict_body data) (fun e => raise (prediction_error e)) w.
Proof.
  intros Hw Ho Hz. unfold predict_risk_score, bind, get_model.
  rewrite Hw, Ho, Hz. reflexivity.
Qed.

(** The [try] block calls the artifact once and scores what it answers. *)
Lemma predict_body_run (w : World) (a : Artifact) (data : TenantScoreRequest) :
  app_state_model w = Some (PyArtifact a) ->
  predict_body data w
  = (match predict_proba a [features data] with
     | Raise e => Raise e
     | Return probs =>
         match score_of_probs probs with
         | Raise e => Raise e
         | Return s => Return (response_of_score s)
         end
     end, record_call [features data] w).
Proof.
  intros Hw.
  unfold predict_body, bind, get_model, call_predict_proba, lift, score_of_probs.
  rewrite Hw.
  destruct (predict_proba a [features data]) as [probs | e]; [| reflexivity].
  destruct (getitem probs 0) as [row | e]; [| reflexivity].
  destruct (getitem row 1) as [p | e]; [| reflexivity].
  destruct (Float64.to_int _) as [s | e]; [| reflexivity].
  unfold response_of_score, ret. destruct (categorize s). reflexivity.
Qed.

(** [not app.state.model] is evaluated before the [try]: what [bool()]
    raises leaves the handler as it is. *)
Lemma predict_bool_raises (w : World) (o : PyObject) (data : TenantScoreRequest)
  (e : exn) :
  app_state_model w = Some o -> truthy o = Raise e ->
  predict_risk_score data w = (Raise e, w).
Proof.
  intros Hw Ho. unfold predict_risk_score, bind, get_model, lift.
  rewrite Hw, Ho. reflexivity.
Qed.

Lemma truthy_artifact (o : PyObject) :
  truthy o = Return true -> exists a, o = PyArtifact a /\ truth_value a = Return true.
Proof.
  destruct o as [| a]; cbn; [discriminate | eauto].
Qed.

Lemma getitem_In {A : Type} (xs : list A) (i : nat) (x : A) :
  getitem xs i = Return x -> In x xs.
Proof.
  unfold getitem. destruct (nth_error xs i) eqn:E; [| discriminate].
  intros H. injection H as <-. eapply nth_error_In; eassumption.
Qed.

(** On the model path the handler answers with the score of the array, or
    with what its [except] clause makes of whatever the [try] block raised. *)
Lemma predict_model_path_run (w : World) (a : Artifact) (data : TenantScoreRequest) :
  app_state_model w = Some (PyArtifact a) -> truth_value a = Return true ->
  (missedPeriods data =? 0) && (totalDisputes data =? 0) = false ->
  predict_risk_score data w
  = (match predict_proba a [features data] with
     | Raise e => Raise (surfaced e)
     | Return probs =>
         match score_of_probs probs with
         | Raise e => Raise (surfaced e)
         | Return s => Return (response_of_score s)
         end
     end, record_call [features data] w).
Proof.
  intros Hw Ha Hz.
  rewrite (predict_model_path w (PyArtifact a) data Hw Ha Hz).
  unfold try_except, surfaced, raise. rewrite (predict_body_run w a data Hw).
  destruct (predict_proba a _) as [probs | e];
    [| destruct (is_Exception e); reflexivity].
  destruct (score_of_probs probs) as [s | e];
    [| destruct (is_Exception e)]; reflexivity.
Qed.

(** The four ways through the handler once [app.state.model] is assigned. *)
Lemma predict_cases (w : World) (o : PyObject) (data : TenantScoreRequest) :
  app_state_model w = Some o ->
  (exists e, truthy o = Raise e /\ predict_risk_score data w = (Raise e, w))
  \/ (truthy o = Return false
      /\ predict_risk_score data w = (Raise model_not_loaded, w))
  \/ (truthy o = Return true
      /\ (missedPeriods data =? 0) && (totalDisputes data =? 0) = true
      /\ predict_risk_score data w = (Return perfect_record_response, w))
  \/ (exists a,
        o = PyArtifact a /\ truth_value a = Return true
        /\ (missedPeriods data =? 0) && (totalDisputes data =? 0) = false
        /\ predict_risk_score data w
           = (match predict_proba a [features data] with
              | Raise e => Raise (surfaced e)
              | Return probs =>
                  match score_of_probs probs with
                  | Raise e => Raise (surfaced e)
                  | Return s => Return (response_of_score s)
                  end
              end, record_call [features data] w)).
Proof.
  intros Hw. destruct (truthy o) as [[|] | e] eqn:Ho.
  - destruct ((missedPeriods data =? 0) && (totalDisputes data =? 0)) eqn:Hz.
    + right; right; left. split; [reflexivity | split; [reflexivity |]].
      apply (predict_fast_path w o data Hw Ho Hz).
    + right; right; right.
      destruct (truthy_artifact o Ho) as (a & -> & Ha). exists a.
      split; [reflexivity | split; [exact Ha | split; [reflexivity |]]].
      apply (predict_model_path_run w a data Hw Ha Hz).
  - right; left. split; [reflexivity |].
    apply (predict_unavailable w o data Hw Ho).
  - left. exists e. split; [reflexivity |].
    apply (predict_bool_raises w o data e Hw Ho).
Qed.

(** The handler never assigns [app.state.model] and never prints. *)
Lemma predict_preserves (w : World) (data : TenantScoreRequest) :
  app_state_model (snd (predict_risk_score data w)) = app_state_model w
  /\ stdout (snd (predict_risk_score data w)) = stdout w.
Proof.
  destruct (app_state_model w) as [o |] eqn:Hw.
  - destruct (predict_cases w o data Hw)
      as [(e & _ & ->) | [(_ & ->) | [(_ & _ & ->) | (a & _ & _ & _ & ->)]]];
      cbn [snd]; auto.
  - rewrite (predict_unset w data Hw). cbn. auto.
Qed.

(** The response depends on the world through [app.state.model] alone. *)
Lemma predict_reads_model_only (w1 w2 : World) (data : TenantScoreRequest) :
  app_state_model w1 = app_state_model w2 ->
  fst (predict_risk_score data w1) = fst (predict_risk_score data w2).
Proof.
  intros Heq.
  destruct (app_state_model w1) as [o |] eqn:Hw1; symmetry in Heq.
  - destruct (truthy o) as [[|] | e] eqn:Ho.
    + destruct ((missedPeriods data =? 0) && (totalDisputes data =? 0)) eqn:Hz.
      * rewrite (predict_fast_path w1 o data Hw1 Ho Hz),
                (predict_fast_path w2 o data Heq Ho Hz). reflexivity.
      * destruct (truthy_artifact o Ho) as (a & -> & Ha).
        rewrite (predict_model_path_run w1 a data Hw1 Ha Hz),
                (predict_model_path_run w2 a data Heq Ha Hz). reflexivity.
    + rewrite (predict_unavailable w1 o data Hw1 Ho),
              (predict_unavailable w2 o data Heq Ho). reflexivity.
    + rewrite (predict_bool_raises w1 o data e Hw1 Ho),
              (predict_bool_raises w2 o data e Heq Ho). reflexivity.
  - rewrite (predict_unset w1 data Hw1), (predict_unset w2 data Heq). reflexivity.
Qed.

(* ===================================================================== *)
(** ** Start-up and the health route *)
(* ===================================================================== *)

Lemma lifespan_absent (fs : FileSystem) (w : World) :
  path_exists fs MODEL_PATH = false ->
  lifespan fs w
  = (Return tt,
     {| app_state_model := Some PyNone;
        stdout := stdout w ++ [not_found_message];
        inferences := inferences w |}).
Proof.
  intros H. unfold lifespan. rewrite H. reflexivity.
Qed.

Lemma lifespan_loaded (fs : FileSystem) (w : World) (o : PyObject) :
  path_exists fs MODEL_PATH = true ->
  joblib_load fs MODEL_PATH = Return o ->
  lifespan fs w
  = (Return tt,
     {| app_state_model := Some o;
        stdout := stdout w ++ ["✅ Production Model Loaded Successfully."%string];
        inferences := inferences w |}).
Proof.
  intros H1 H2. unfold lifespan, bind, lift. rewrite H1, H2. reflexivity.
Qed.

Lemma lifespan_load_raises (fs : FileSystem) (w : World) (e : exn) :
  path_exists fs MODEL_PATH = true ->
  joblib_load fs MODEL_PATH = Raise e ->
  lifespan fs w = (Raise e, w).
Proof.
  intros H1 H2. unfold lifespan, bind, lift. rewrite H1, H2. reflexivity.
Qed.

Lemma health_check_run (w : World) (o : PyObject) :
  app_state_model w = Some o ->
  health_check w
  = (Return {| status := "Online"; model_loaded := is_not_None o |}, w).
Proof.
  intros Hw. unfold health_check, bind, get_model. rewrite Hw. reflexivity.
Qed.

Lemma is_not_None_iff (o : PyObject) : is_not_None o = true <-> o <> PyNone.
Proof.
  destruct o; cbn; split; congruence.
Qed.

(* ===================================================================== *)
(** ** Scenarios of the specification *)
(* ===================================================================== *)

Example of_int_100 : Float64.of_int 100 = Float64.hundred.
Proof. reflexivity. Qed.

Example of_int_1 : Float64.of_int 1 = Float64.one.
Proof. reflexivity. Qed.

(** 0.29 * 100 is 28.999999999999996 in binary64: the score is 28. *)
Example score_0_29 :
  Float64.to_int (Float64.mul f_0_29 (Float64.of_int 100)) = Return 28.
Proof. vm_compute. reflexivity. Qed.

(** Truncation and rounding part at 0.999: 99, where rounding gives 100. *)
Example score_0_999_not_rounded :
  Float64.to_int (Float64.mul f_0_999 (Float64.of_int 100)) = Return 99
  /\ Float64.round_half_up (Float64.mul f_0_999 (Float64.of_int 100)) = Some 100.
Proof. vm_compute. split; reflexivity. Qed.

(** The product is rounded to a float before it is truncated: the binary64
    number nearest 0.30 lies below 3/10, its exact product by 100 below 30,
    and the rounded product is 30.0. *)
Example product_is_rounded_before_truncation :
  Float64.to_int (Float64.mul f_0_30 (Float64.of_int 100)) = Return 30
  /\ Float64.floor (Float64.mul f_0_30 (Float64.of_int 100)) = Some 30
  /\ Float64.floor_of_exact_product f_0_30 100 = Some 29.
Proof. vm_compute. repeat split; reflexivity. Qed.

(** Below zero [int] and [floor] part: [int(-0.5) = 0], [floor(-0.5) = -1]. *)
Example int_truncates_toward_zero :
  Float64.to_int f_minus_0_5 = Return 0 /\ Float64.floor f_minus_0_5 = Some (-1).
Proof. vm_compute. split; reflexivity. Qed.

Example scenario_perfect_record :
  fst (predict_risk_score (request 0 0)
         (started (fs_holding (PyArtifact (constant_classifier f_0_18 f_0_82)))))
  = Return {| trust_score := 100; risk_category := "Safe"; recommendation := "Approve" |}.
Proof. vm_compute. reflexivity. Qed.

Example scenario_0_82 :
  fst (predict_risk_score (request 2 1)
         (started (fs_holding (PyArtifact (constant_classifier f_0_18 f_0_82)))))
  = Return {| trust_score := 82; risk_category := "Safe"; recommendation := "Approve" |}.
Proof. vm_compute. reflexivity. Qed.

Example scenario_0_30 :
  fst (predict_risk_score (request 5 3)
         (started (fs_holding (PyArtifact (constant_classifier f_0_70 f_0_30)))))
  = Return {| trust_score := 30; risk_category := "Risky";
              recommendation := "Review Manually" |}.
Proof. vm_compute. reflexivity. Qed.

Example scenario_model_file_absent :
  fst (predict_risk_score (request 1 0) (started fs_absent))
  = Raise (HTTPException 503 "AI Model is not loaded on server.").
Proof. vm_compute. reflexivity. Qed.

Example scenario_boundaries :
  let run p_bad p_good :=
    fst (predict_risk_score (request 1 1)
           (started (fs_holding (PyArtifact (constant_classifier p_bad p_good))))) in
  run f_0_25 f_0_75 = Return {| trust_score := 75; risk_category := "Moderate";
                                recommendation := "Review Manually" |}
  /\ run f_0_24 f_0_76 = Return {| trust_score := 76; risk_category := "Safe";
                                   recommendation := "Approve" |}
  /\ run f_0_60 f_0_40 = Return {| trust_score := 40; risk_category := "Moderate";
                                   recommendation := "Review Manually" |}
  /\ run f_0_61 f_0_39 = Return {| trust_score := 39; risk_category := "Risky";
                                   recommendation := "Review Manually" |}.
Proof. vm_compute. repeat split; reflexivity. Qed.

(** An array with a single column: [probs[0][1]] raises, the handler
    answers 500 with the text of the [IndexError]. *)
Example scenario_index_error :
  fst (predict_risk_score (request 1 1)
         (started (fs_holding (PyArtifact (one_column_classifier f_0_82)))))
  = Raise (HTTPException 500
      "Prediction Error: index 1 is out of bounds for axis 0 with size 1").
Proof. vm_compute. reflexivity. Qed.

(* ===================================================================== *)
(** ** Properties of the specification *)
(* ===================================================================== *)

(** C1. On the model path, whatever integer score [s] the handler computes
    from the artifact's answer, the category and the recommendation of the
    response are those of the table: above 75 Safe/Approve, below 40
    Risky/Review Manually, from 40 to 75 Moderate/Review Manually; so 75 and
    40 are Moderate, 76 is Safe and 39 is Risky. *)
Theorem C1_categorization_follows_table
  (w : World) (a : Artifact) (data : TenantScoreRequest)
  (probs : ndarray) (s : Z) :
  app_state_model w = Some (PyArtifact a) -> truth_value a = Return true ->
  (missedPeriods data =? 0) && (totalDisputes data =? 0) = false ->
  predict_proba a [features data] = Return probs ->
  score_of_probs probs = Return s ->
  (exists c r,
      table_row s c r
      /\ fst (predict_risk_score data w)
         = Return {| trust_score := s;
                     risk_category := category_name c;
                     recommendation := recommendation_name r |})
  /\ (s = 75 \/ s = 40 ->
      fst (predict_risk_score data w)
      = Return {| trust_score := s; risk_category := "Moderate";
                  recommendation := "Review Manually" |})
  /\ (s = 76 ->
      fst (predict_risk_score data w)
      = Return {| trust_score := 76; risk_category := "Safe";
                  recommendation := "Approve" |})
  /\ (s = 39 ->
      fst (predict_risk_score data w)
      = Return {| trust_score := 39; risk_category := "Risky";
                  recommendation := "Review Manually" |}).
Proof.
  intros Hw Ha Hz Hprobs Hs.
  rewrite (predict_model_path_run w a data Hw Ha Hz), Hprobs, Hs.
  cbn [fst]. unfold response_of_score.
  split; [| split; [| split]].
  - destruct (categorize_table s) as (c & r & Hrow & ->).
    exists c, r. split; [exact Hrow | reflexivity].
  - intros [-> | ->]; reflexivity.
  - intros ->. reflexivity.
  - intros ->. reflexivity.
Qed.

Lemma C1_witness :
  let a := constant_classifier f_0_24 f_0_76 in
  let w := started (fs_holding (PyArtifact a)) in
  score_of_probs [[f_0_24; f_0_76]] = Return 76
  /\ fst (predict_risk_score (request 2 1) w)
     = Return {| trust_score := 76; risk_category := "Safe";
                 recommendation := "Approve" |}.
Proof.
  split; [vm_compute; reflexivity |].
  apply (C1_categorization_follows_table
           (started (fs_holding (PyArtifact (constant_classifier f_0_24 f_0_76))))
           (constant_classifier f_0_24 f_0_76) (request 2 1)
           [[f_0_24; f_0_76]] 76);
    reflexivity.
Defined.

(** C2. On the model path the trust probability is [probs[0][1]], the second
    component of the pair answered for the single input row, and the trust
    score is [int(trust_probability * 100)].  For a probability in [0, 1]:
    the product the code truncates is [100] times the probability up to the
    rounding of binary64 (within [2^-47] of it); the truncation returns and
    is the floor of that product; so the score is the floor of the exact
    product or one more. *)
Theorem C2_score_is_floor_of_product
  (w : World) (a : Artifact) (data : TenantScoreRequest)
  (probs : ndarray) (row : list Float64.float64) (prob_good : Float64.float64) :
  app_state_model w = Some (PyArtifact a) -> truth_value a = Return true ->
  (missedPeriods data =? 0) && (totalDisputes data =? 0) = false ->
  predict_proba a [features data] = Return probs ->
  getitem probs 0 = Return row ->
  getitem row 1 = Return prob_good ->
  Float64.is_probability prob_good = true ->
  exists q q' s f resp,
    Float64.to_Q prob_good = Some q
    /\ Float64.to_Q (Float64.mul prob_good (Float64.of_int 100)) = Some q'
    /\ (Qabs (q' - q * inject_Z 100) <= 1 # 140737488355328)%Q
    /\ Float64.to_int (Float64.mul prob_good (Float64.of_int 100)) = Return s
    /\ Float64.floor (Float64.mul prob_good (Float64.of_int 100)) = Some s
    /\ s = Qfloor q'
    /\ Float64.floor_of_exact_product prob_good 100 = Some f
    /\ f <= s <= f + 1
    /\ fst (predict_risk_score data w) = Return resp
    /\ trust_score resp = s.
Proof.
  intros Hw Ha Hz Hprobs Hrow Hp Hrange.
  destruct (probability_score prob_good Hrange) as (s & Hint & Hfloor & _).
  destruct (product_error prob_good Hrange) as (q & q' & Hq & Hq' & Herr).
  destruct (score_near_exact_floor prob_good Hrange) as (s' & f & Hint' & Hf & Hsf).
  rewrite Hint in Hint'. injection Hint' as <-.
  exists q, q', s, f, (response_of_score s).
  split; [exact Hq | split; [exact Hq' | split; [exact Herr |]]].
  split; [exact Hint | split; [exact Hfloor |]].
  split.
  { unfold Float64.floor in Hfloor. rewrite Hq' in Hfloor.
    cbn [option_map] in Hfloor. injection Hfloor as <-. reflexivity. }
  split; [exact Hf | split; [exact Hsf | split; [| reflexivity]]].
  rewrite (predict_model_path_run w a data Hw Ha Hz), Hprobs.
  unfold score_of_probs. rewrite Hrow, Hp, Hint. reflexivity.
Qed.

Lemma C2_witness :
  let a := constant_classifier f_0_18 f_0_82 in
  let w := started (fs_holding (PyArtifact a)) in
  Float64.is_probability f_0_82 = true
  /\ Float64.to_int (Float64.mul f_0_82 (Float64.of_int 100)) = Return 82
  /\ Float64.floor_of_exact_product f_0_82 100 = Some 81
  /\ fst (predict_risk_score (request 2 1) w)
     = Return {| trust_score := 82; risk_category := "Safe";
                 recommendation := "Approve" |}
  /\ exists q q' s f resp,
       Float64.to_Q f_0_82 = Some q
       /\ Float64.to_Q (Float64.mul f_0_82 (Float64.of_int 100)) = Some q'
       /\ (Qabs (q' - q * inject_Z 100) <= 1 # 140737488355328)%Q
       /\ Float64.to_int (Float64.mul f_0_82 (Float64.of_int 100)) = Return s
       /\ Float64.floor (Float64.mul f_0_82 (Float64.of_int 100)) = Some s
       /\ s = Qfloor q'
       /\ Float64.floor_of_exact_product f_0_82 100 = Some f
       /\ f <= s <= f + 1
       /\ fst (predict_risk_score (request 2 1) w) = Return resp
       /\ trust_score resp = s.
Proof.
  split; [vm_compute; reflexivity |].
  split; [vm_compute; reflexivity |].
  split; [vm_compute; reflexivity |].
  split; [vm_compute; reflexivity |].
  apply (C2_score_is_floor_of_product
           (started (fs_holding (PyArtifact (constant_classifier f_0_18 f_0_82))))
           (constant_classifier f_0_18 f_0_82) (request 2 1)
           [[f_0_18; f_0_82]] [f_0_18; f_0_82] f_0_82);
    reflexivity.
Defined.

(** C3. The guard before the automatic approval tests the truth value of
    the model handle, not whether a model is loaded.  Two loaded artifacts
    (GET / reports [model_loaded: true] for both) and the zero/zero
    request: for the one whose [bool()] is False the handler raises 503
    "AI Model is not loaded on server."; for the one whose [bool()] raises
    (a forest pickled before it was fitted) the AttributeError leaves the
    handler as it is.  Neither gets the automatic approval. *)
Theorem C3_loaded_model_is_refused_the_fast_path :
  let falsy := started (fs_holding (PyArtifact falsy_classifier)) in
  let unfitted := started (fs_holding (PyArtifact unfitted_classifier)) in
  (fst (health_check falsy) = Return {| status := "Online"; model_loaded := true |}
   /\ predict_risk_score (request 0 0) falsy
      = (Raise (HTTPException 503 "AI Model is not loaded on server."), falsy))
  /\ (fst (health_check unfitted)
      = Return {| status := "Online"; model_loaded := true |}
      /\ predict_risk_score (request 0 0) unfitted
         = (Raise (PyError "AttributeError"
                     "'RandomForestClassifier' object has no attribute 'estimators_'"),
            unfitted)).
Proof.
  vm_compute. repeat split; reflexivity.
Qed.

(** With a handle whose [bool()] is True, the zero/zero request is approved
    at once: the response is the fixed one and the world is left as it was,
    the artifact's [predict_proba] is not called. *)
Lemma fast_path_with_truthy_handle
  (w : World) (o : PyObject) (data : TenantScoreRequest) :
  app_state_model w = Some o -> truthy o = Return true ->
  missedPeriods data = 0 -> totalDisputes data = 0 ->
  predict_risk_score data w
  = (Return {| trust_score := 100; risk_category := "Safe";
               recommendation := "Approve" |}, w)
  /\ inferences (snd (predict_risk_score data w)) = inferences w.
Proof.
  intros Hw Ho Hmp Htd.
  assert (Hz : (missedPeriods data =? 0) && (totalDisputes data =? 0) = true)
    by (rewrite Hmp, Htd; reflexivity).
  rewrite (predict_fast_path w o data Hw Ho Hz). split; reflexivity.
Qed.

(** C4. When the model handle is None the handler raises the 503
    HTTPException for every request, the zero/zero one included, and the
    world is untouched: nothing was computed, the artifact was not called. *)
Theorem C4_unavailable_precedes_fast_path
  (w : World) (data : TenantScoreRequest) :
  app_state_model w = Some PyNone ->
  predict_risk_score data w
  = (Raise (HTTPException 503 "AI Model is not loaded on server."), w).
Proof.
  intros Hw. apply (predict_unavailable w PyNone data Hw). reflexivity.
Qed.

Lemma C4_witness :
  predict_risk_score (request 0 0) (started fs_absent)
  = (Raise (HTTPException 503 "AI Model is not loaded on server."),
     started fs_absent).
Proof.
  apply (C4_unavailable_precedes_fast_path (started fs_absent) (request 0 0)).
  reflexivity.
Defined.

(** C5, as stated: a model file that exists and does not unpickle.
    [joblib.load] raises, nothing in [lifespan] catches it: the exception
    leaves the start-up code, [app.state.model] is never assigned and
    nothing is printed. *)
Lemma C5_counterexample :
  path_exists fs_corrupt MODEL_PATH = true
  /\ lifespan fs_corrupt boot
     = (Raise (PyError "UnpicklingError" "invalid load key, 'x'."), boot)
  /\ app_state_model (snd (lifespan fs_corrupt boot)) = None
  /\ stdout (snd (lifespan fs_corrupt boot)) = [].
Proof.
  vm_compute. repeat split; reflexivity.
Qed.

(** C5, amended. A failure to locate the artifact file (no file at the fixed
    path) raises nothing: the model handle is set to None, the diagnostic
    line is printed and start-up goes on.  An exception raised by
    [joblib.load] on a file that exists is not caught: it leaves the
    start-up code as it is. *)
Theorem C5_missing_file_is_unavailable (fs : FileSystem) (w : World) :
  (path_exists fs MODEL_PATH = false ->
   lifespan fs w
   = (Return tt,
      {| app_state_model := Some PyNone;
         stdout := stdout w ++ [not_found_message];
         inferences := inferences w |}))
  /\ (forall e,
        path_exists fs MODEL_PATH = true ->
        joblib_load fs MODEL_PATH = Raise e ->
        lifespan fs w = (Raise e, w)).
Proof.
  split.
  - apply lifespan_absent.
  - intros e. apply lifespan_load_raises.
Qed.

Lemma C5_witness :
  path_exists fs_absent MODEL_PATH = false
  /\ lifespan fs_absent boot
     = (Return tt,
        {| app_state_model := Some PyNone;
           stdout := [not_found_message];
           inferences := [] |}).
Proof.
  split; [reflexivity |].
  apply (proj1 (C5_missing_file_is_unavailable fs_absent boot)). reflexivity.
Defined.

(** C6. Every response of the scoring handler, on the fast path or on the
    model path, carries a trust score between 0 and 100, provided the
    probabilities the artifact answers lie in [0, 1]. *)
Theorem C6_trust_score_in_range
  (w w' : World) (data : TenantScoreRequest) (resp : ScoreResponse) :
  (forall a, app_state_model w = Some (PyArtifact a) -> probabilities_in_range a) ->
  predict_risk_score data w = (Return resp, w') ->
  0 <= trust_score resp <= 100.
Proof.
  intros Hrange Hrun.
  destruct (app_state_model w) as [o |] eqn:Hw;
    [| rewrite (predict_unset w data Hw) in Hrun; discriminate].
  destruct (predict_cases w o data Hw)
    as [(e & _ & H) | [(_ & H) | [(_ & _ & H) | (a & -> & Ha & Hz & H)]]];
    rewrite H in Hrun; try discriminate.
  - injection Hrun as <- _. cbn. lia.
  - destruct (predict_proba a [features data]) as [probs | e] eqn:Hprobs;
      [| discriminate].
    unfold score_of_probs in Hrun.
    destruct (getitem probs 0) as [row | e] eqn:Hrow; [| discriminate].
    destruct (getitem row 1) as [p | e] eqn:Hp; [| discriminate].
    assert (Hpr : Float64.is_probability p = true).
    { apply (Hrange a eq_refl [features data] probs row p Hprobs).
      - eapply getitem_In; eassumption.
      - eapply getitem_In; eassumption. }
    destruct (probability_score p Hpr) as (s & Hint & _ & Hs).
    rewrite Hint in Hrun. injection Hrun as <- _. cbn. exact Hs.
Qed.

Lemma constant_classifier_in_range (p_bad p_good : Float64.float64) :
  Float64.is_probability p_bad = true ->
  Float64.is_probability p_good = true ->
  probabilities_in_range (constant_classifier p_bad p_good).
Proof.
  intros Hb Hg x probs row p Hprobs Hrow Hp. cbn in Hprobs.
  injection Hprobs as <-. apply in_map_iff in Hrow as (_ & <- & _).
  destruct Hp as [<- | [<- | []]]; assumption.
Qed.

Lemma C6_witness :
  let a := constant_classifier f_0_70 f_0_30 in
  let w := started (fs_holding (PyArtifact a)) in
  let resp := {| trust_score := 30; risk_category := "Risky";
                 recommendation := "Review Manually" |} in
  probabilities_in_range a
  /\ predict_risk_score (request 5 3) w
     = (Return resp, record_call [features (request 5 3)] w)
  /\ 0 <= trust_score resp <= 100.
Proof.
  split; [apply constant_classifier_in_range; reflexivity |].
  split; [reflexivity |].
  apply (C6_trust_score_in_range
           (started (fs_holding (PyArtifact (constant_classifier f_0_70 f_0_30))))
           (record_call [features (request 5 3)]
              (started (fs_holding (PyArtifact (constant_classifier f_0_70 f_0_30)))))
           (request 5 3)).
  - intros a Ha. injection Ha as <-.
    apply constant_classifier_in_range; reflexivity.
  - reflexivity.
Defined.

(** C7, as stated: an inference that is interrupted.  [predict_proba] raises
    KeyboardInterrupt, which is not an instance of [Exception]: the
    [except Exception] clause does not catch it, and it leaves the handler
    as it is instead of becoming an HTTP 500. *)
Lemma C7_counterexample :
  let e := PyBaseException "KeyboardInterrupt" "" in
  let w := started (fs_holding (PyArtifact (failing_classifier e))) in
  is_Exception e = false
  /\ predict_body (request 2 1) w = (Raise e, record_call [features (request 2 1)] w)
  /\ predict_risk_score (request 2 1) w
     = (Raise e, record_call [features (request 2 1)] w).
Proof.
  vm_compute. repeat split; reflexivity.
Qed.

(** C7, amended. On the model path every instance of [Exception] raised
    inside the [try] block (by the artifact's [predict_proba], by the
    indexing of its answer, by the conversion to an integer) is caught and
    raised again as HTTPException 500 whose detail is "Prediction Error: "
    followed by the text of the exception; what is raised and is not an
    instance of [Exception] leaves the handler as it is; nothing else leaves
    the handler, and the artifact is called once, not again. *)
Theorem C7_failures_become_500
  (w : World) (a : Artifact) (data : TenantScoreRequest) :
  app_state_model w = Some (PyArtifact a) -> truth_value a = Return true ->
  (missedPeriods data =? 0) && (totalDisputes data =? 0) = false ->
  (forall e w',
      predict_body data w = (Raise e, w') -> is_Exception e = true ->
      predict_risk_score data w
      = (Raise (HTTPException 500 ("Prediction Error: " ++ str e)), w'))
  /\ (forall e,
        predict_proba a [features data] = Raise e -> is_Exception e = true ->
        predict_risk_score data w
        = (Raise (HTTPException 500 ("Prediction Error: " ++ str e)),
           record_call [features data] w))
  /\ (forall e w',
        predict_body data w = (Raise e, w') -> is_Exception e = false ->
        predict_risk_score data w = (Raise e, w'))
  /\ (forall e w',
        predict_risk_score data w = (Raise e, w') ->
        exists e0,
          predict_body data w = (Raise e0, w')
          /\ ((is_Exception e0 = true
               /\ e = HTTPException 500 ("Prediction Error: " ++ str e0))
              \/ (is_Exception e0 = false /\ e = e0)))
  /\ inferences (snd (predict_risk_score data w))
     = inferences w ++ [[features data]].
Proof.
  intros Hw Ha Hz.
  rewrite (predict_model_path w (PyArtifact a) data Hw Ha Hz).
  unfold try_except, raise, prediction_error.
  split; [| split; [| split; [| split]]].
  - intros e w' Hbody He. rewrite Hbody, He. reflexivity.
  - intros e Hraise He.
    rewrite (predict_body_run w a data Hw), Hraise, He. reflexivity.
  - intros e w' Hbody He. rewrite Hbody, He. reflexivity.
  - intros e w' Hrun.
    destruct (predict_body data w) as [[resp | e0] w0]; [discriminate |].
    exists e0. destruct (is_Exception e0) eqn:He0; injection Hrun as <- <-.
    + split; [reflexivity | left; split; reflexivity].
    + split; [reflexivity | right; split; reflexivity].
  - rewrite (predict_body_run w a data Hw).
    destruct (predict_proba a [features data]) as [probs | e];
      [| destruct (is_Exception e); reflexivity].
    destruct (score_of_probs probs) as [s | e];
      [| destruct (is_Exception e)]; reflexivity.
Qed.

Lemma C7_witness :
  let e := PyError "ValueError" "X has 2 features, but model is expecting 3" in
  let w := started (fs_holding (PyArtifact (failing_classifier e))) in
  is_Exception e = true
  /\ predict_risk_score (request 2 1) w
     = (Raise (HTTPException 500
          "Prediction Error: X has 2 features, but model is expecting 3"),
        record_call [features (request 2 1)] w).
Proof.
  split; [reflexivity |].
  apply (proj1 (proj2
    (C7_failures_become_500
       (started (fs_holding (PyArtifact (failing_classifier
          (PyError "ValueError" "X has 2 features, but model is expecting 3")))))
       (failing_classifier
          (PyError "ValueError" "X has 2 features, but model is expecting 3"))
       (request 2 1) eq_refl eq_refl eq_refl))
    (PyError "ValueError" "X has 2 features, but model is expecting 3"));
    reflexivity.
Defined.

(** C8. The handler tests the truth value of the model handle, the health
    route tests it against None: with an artifact that is not None and whose
    truth value is False, POST /predict/score raises 503 while GET /
    reports [model_loaded: true]. *)
Theorem C8_truthiness_and_health_disagree
  (w : World) (a : Artifact) (data : TenantScoreRequest) :
  app_state_model w = Some (PyArtifact a) -> truth_value a = Return false ->
  PyArtifact a <> PyNone
  /\ fst (predict_risk_score data w)
     = Raise (HTTPException 503 "AI Model is not loaded on server.")
  /\ fst (health_check w)
     = Return {| status := "Online"; model_loaded := true |}.
Proof.
  intros Hw Ha. split; [discriminate | split].
  - rewrite (predict_unavailable w (PyArtifact a) data Hw Ha). reflexivity.
  - rewrite (health_check_run w (PyArtifact a) Hw). reflexivity.
Qed.

Lemma C8_witness :
  let w := started (fs_holding (PyArtifact falsy_classifier)) in
  PyArtifact falsy_classifier <> PyNone
  /\ fst (predict_risk_score (request 2 1) w)
     = Raise (HTTPException 503 "AI Model is not loaded on server.")
  /\ fst (health_check w)
     = Return {| status := "Online"; model_loaded := true |}.
Proof.
  apply (C8_truthiness_and_health_disagree
           (started (fs_holding (PyArtifact falsy_classifier)))
           falsy_classifier (request 2 1));
    reflexivity.
Defined.

(** C9. Once start-up has completed, GET / returns
    [{status: "Online", model_loaded: b}] and changes nothing, in every
    world whose model handle is the one start-up assigned; [b] is true
    exactly when that handle is not None, that is when the file existed and
    [joblib.load] returned an object other than None; with the file absent
    at start-up [b] is false. *)
Theorem C9_health_reflects_loader
  (fs : FileSystem) (w0 w1 w : World) :
  lifespan fs w0 = (Return tt, w1) ->
  app_state_model w = app_state_model w1 ->
  exists o,
    app_state_model w = Some o
    /\ health_check w
       = (Return {| status := "Online"; model_loaded := is_not_None o |}, w)
    /\ (is_not_None o = true <-> o <> PyNone)
    /\ (is_not_None o = true <->
        path_exists fs MODEL_PATH = true
        /\ exists a, joblib_load fs MODEL_PATH = Return (PyArtifact a))
    /\ (path_exists fs MODEL_PATH = false ->
        health_check w
        = (Return {| status := "Online"; model_loaded := false |}, w)).
Proof.
  intros Hstart Hsame.
  destruct (path_exists fs MODEL_PATH) eqn:Hex.
  - destruct (joblib_load fs MODEL_PATH) as [o | e] eqn:Hload.
    + rewrite (lifespan_loaded fs w0 o Hex Hload) in Hstart.
      injection Hstart as <-. cbn in Hsame. exists o.
      split; [exact Hsame |].
      split; [apply health_check_run; exact Hsame |].
      split; [apply is_not_None_iff |].
      split; [| discriminate].
      split.
      * intros Ho. split; [reflexivity |].
        destruct o as [| a]; [discriminate | exists a; reflexivity].
      * intros (_ & a & Ha). injection Ha as ->. reflexivity.
    + rewrite (lifespan_load_raises fs w0 e Hex Hload) in Hstart. discriminate.
  - rewrite (lifespan_absent fs w0 Hex) in Hstart.
    injection Hstart as <-. cbn in Hsame. exists PyNone.
    split; [exact Hsame |].
    split; [apply health_check_run; exact Hsame |].
    split; [apply is_not_None_iff |].
    split.
    + split; [discriminate | intros (H & _); discriminate].
    + intros _. apply (health_check_run w PyNone Hsame).
Qed.

Lemma C9_witness :
  health_check (started fs_absent)
  = (Return {| status := "Online"; model_loaded := false |}, started fs_absent).
Proof.
  destruct (C9_health_reflects_loader fs_absent boot (started fs_absent)
              (started fs_absent) eq_refl eq_refl)
    as (o & _ & _ & _ & _ & H).
  apply H. reflexivity.
Defined.

(** C10. Two calls of the scoring handler with the same request, in two
    worlds holding the same artifact (whatever was printed or inferred
    before), answer the same; and a call leaves [app.state.model] as it
    found it, so a second call right after the first answers as the first. *)
Theorem C10_handler_is_deterministic
  (w1 w2 : World) (data : TenantScoreRequest) :
  app_state_model w1 = app_state_model w2 ->
  fst (predict_risk_score data w1) = fst (predict_risk_score data w2)
  /\ app_state_model (snd (predict_risk_score data w1)) = app_state_model w1
  /\ app_state_model (snd (predict_risk_score data w2)) = app_state_model w2
  /\ fst (predict_risk_score data (snd (predict_risk_score data w1)))
     = fst (predict_risk_score data w1).
Proof.
  intros Heq.
  split; [apply predict_reads_model_only; exact Heq |].
  split; [apply predict_preserves |].
  split; [apply predict_preserves |].
  apply predict_reads_model_only, predict_preserves.
Qed.

Lemma C10_witness :
  let a := constant_classifier f_0_18 f_0_82 in
  let w1 := started (fs_holding (PyArtifact a)) in
  let w2 := snd (predict_risk_score (request 5 3) w1) in
  app_state_model w1 = app_state_model w2
  /\ fst (predict_risk_score (request 2 1) w1)
     = fst (predict_risk_score (request 2 1) w2).
Proof.
  split; [reflexivity |].
  apply (C10_handler_is_deterministic
           (started (fs_holding (PyArtifact (constant_classifier f_0_18 f_0_82))))
           (snd (predict_risk_score (request 5 3)
                   (started (fs_holding
                      (PyArtifact (constant_classifier f_0_18 f_0_82))))))
           (request 2 1)).
  reflexivity.
Defined.

(* ===================================================================== *)
(** ** Further properties of the routes and of start-up *)
(* ===================================================================== *)

Lemma health_check_world (w : World) : snd (health_check w) = w.
Proof.
  unfold health_check, bind, get_model. destruct (app_state_model w); reflexivity.
Qed.

(** What a request leaves of the world: the model and the output as they
    were, the list of inferences longer by at most one. *)
Lemma serve_preserves (rq : Request) (w : World) :
  app_state_model (serve rq w) = app_state_model w
  /\ stdout (serve rq w) = stdout w
  /\ exists calls,
       inferences (serve rq w) = inferences w ++ calls
       /\ (List.length calls <= 1)%nat.
Proof.
  destruct rq as [| data]; cbn [serve].
  - rewrite health_check_world. split; [reflexivity | split; [reflexivity |]].
    exists []. rewrite app_nil_r. split; [reflexivity | cbn; lia].
  - destruct (predict_preserves w data) as [Hm Hs].
    split; [exact Hm | split; [exact Hs |]].
    destruct (app_state_model w) as [o |] eqn:Hw.
    + destruct (predict_cases w o data Hw)
        as [(e & _ & ->) | [(_ & ->) | [(_ & _ & ->) | (a & _ & _ & _ & ->)]]];
        cbn [snd].
      * exists []. rewrite app_nil_r. split; [reflexivity | cbn; lia].
      * exists []. rewrite app_nil_r. split; [reflexivity | cbn; lia].
      * exists []. rewrite app_nil_r. split; [reflexivity | cbn; lia].
      * exists [[features data]]. split; [reflexivity | cbn; lia].
    + rewrite (predict_unset w data Hw). exists [].
      rewrite app_nil_r. split; [reflexivity | cbn; lia].
Qed.

(** With a falsy handle no request changes anything. *)
Lemma serve_unavailable (rq : Request) (w : World) (o : PyObject) :
  app_state_model w = Some o -> truthy o = Return false -> serve rq w = w.
Proof.
  intros Hw Ho. destruct rq as [| data]; cbn [serve].
  - apply health_check_world.
  - rewrite (predict_unavailable w o data Hw Ho). reflexivity.
Qed.

Lemma serve_all_unavailable (rqs : list Request) (w : World) (o : PyObject) :
  app_state_model w = Some o -> truthy o = Return false -> serve_all rqs w = w.
Proof.
  intros Hw Ho. unfold serve_all.
  induction rqs as [| rq rqs IH]; cbn [fold_left]; [reflexivity |].
  rewrite (serve_unavailable rq w o Hw Ho). exact IH.
Qed.

(** X1. Whatever path produced it, a response carries the category and the
    recommendation that step 4 gives to its own trust score (the automatic
    approval agrees with the table at 100); so the recommendation is
    "Approve" exactly when the trust score is above 75, and the category is
    "Risky" exactly when it is below 40. *)
Theorem X1_response_is_consistent
  (w w' : World) (data : TenantScoreRequest) (resp : ScoreResponse) :
  predict_risk_score data w = (Return resp, w') ->
  (risk_category resp, recommendation resp) = categorize (trust_score resp)
  /\ (recommendation resp = "Approve"%string <-> 75 < trust_score resp)
  /\ (risk_category resp = "Safe"%string <-> 75 < trust_score resp)
  /\ (risk_category resp = "Risky"%string <-> trust_score resp < 40).
Proof.
  intros Hrun.
  assert (Hpair : (risk_category resp, recommendation resp)
                  = categorize (trust_score resp)).
  { destruct (app_state_model w) as [o |] eqn:Hw;
      [| rewrite (predict_unset w data Hw) in Hrun; discriminate].
    destruct (predict_cases w o data Hw)
      as [(e & _ & H) | [(_ & H) | [(_ & _ & H) | (a & -> & Ha & Hz & H)]]];
      rewrite H in Hrun; try discriminate.
    - injection Hrun as <- _. reflexivity.
    - destruct (predict_proba a [features data]) as [probs | e]; [| discriminate].
      destruct (score_of_probs probs) as [s | e]; [| discriminate].
      injection Hrun as <- _. unfold response_of_score. cbn.
      destruct (categorize s). reflexivity. }
  split; [exact Hpair |].
  assert (Hc : risk_category resp = fst (categorize (trust_score resp)))
    by (rewrite <- Hpair; reflexivity).
  assert (Hr : recommendation resp = snd (categorize (trust_score resp)))
    by (rewrite <- Hpair; reflexivity).
  rewrite Hc, Hr. unfold categorize. rewrite Z.gtb_ltb.
  destruct (Z.ltb_spec 75 (trust_score resp)) as [Hhi | Hhi]; cbn [fst snd].
  - repeat split; try (intros; assumption); try reflexivity;
      try discriminate; intros; lia.
  - destruct (Z.ltb_spec (trust_score resp) 40) as [Hlo | Hlo]; cbn [fst snd];
      repeat split; try discriminate; try (intros; lia); try reflexivity;
      intros; assumption.
Qed.

Lemma X1_witness :
  let w := started (fs_holding (PyArtifact (constant_classifier f_0_70 f_0_30))) in
  let resp := {| trust_score := 30; risk_category := "Risky";
                 recommendation := "Review Manually" |} in
  predict_risk_score (request 5 3) w
  = (Return resp, record_call [features (request 5 3)] w)
  /\ (risk_category resp, recommendation resp) = categorize (trust_score resp).
Proof.
  split; [reflexivity |].
  apply (X1_response_is_consistent
           (started (fs_holding (PyArtifact (constant_classifier f_0_70 f_0_30))))
           (record_call [features (request 5 3)]
              (started (fs_holding (PyArtifact (constant_classifier f_0_70 f_0_30)))))
           (request 5 3)).
  reflexivity.
Defined.



(** X3. On the model path, an answer of the artifact that has no
    [probs[0][1]] (no row, or a first row of fewer than two columns) makes
    the handler raise HTTPException 500 carrying the text of the
    IndexError; no response is built. *)
Theorem X3_short_answer_is_500
  (w : World) (a : Artifact) (data : TenantScoreRequest) (probs : ndarray) :
  app_state_model w = Some (PyArtifact a) -> truth_value a = Return true ->
  (missedPeriods data =? 0) && (totalDisputes data =? 0) = false ->
  predict_proba a [features data] = Return probs ->
  (forall row, nth_error probs 0 = Some row -> (List.length row <= 1)%nat) ->
  exists text,
    score_of_probs probs = Raise (PyError "IndexError" text)
    /\ predict_risk_score data w
       = (Raise (HTTPException 500 ("Prediction Error: " ++ text)),
          record_call [features data] w).
Proof.
  intros Hw Ha Hz Hprobs Hshort.
  rewrite (predict_model_path_run w a data Hw Ha Hz), Hprobs.
  unfold score_of_probs, getitem, prediction_error.
  destruct (nth_error probs 0) as [row |] eqn:Hrow.
  - specialize (Hshort row eq_refl).
    assert (Hnone : nth_error row 1 = None) by (apply nth_error_None; exact Hshort).
    rewrite Hnone. eexists. split; reflexivity.
  - eexists. split; reflexivity.
Qed.

Lemma X3_witness :
  let w := started (fs_holding (PyArtifact (one_column_classifier f_0_82))) in
  exists text,
    score_of_probs [[f_0_82]] = Raise (PyError "IndexError" text)
    /\ predict_risk_score (request 1 1) w
       = (Raise (HTTPException 500 ("Prediction Error: " ++ text)),
          record_call [features (request 1 1)] w).
Proof.
  apply (X3_short_answer_is_500
           (started (fs_holding (PyArtifact (one_column_classifier f_0_82))))
           (one_column_classifier f_0_82) (request 1 1) [[f_0_82]]);
    try reflexivity.
  intros row Hrow. injection Hrow as <-. cbn. lia.
Defined.

(** X4. On the model path a trust probability that is NaN or infinite is
    not turned into a score: the conversion to an integer raises, and the
    handler answers HTTPException 500 with the text of that error. *)
Theorem X4_nan_and_infinity_are_500
  (w : World) (a : Artifact) (data : TenantScoreRequest)
  (probs : ndarray) (row : list Float64.float64) (p : Float64.float64) :
  app_state_model w = Some (PyArtifact a) -> truth_value a = Return true ->
  (missedPeriods data =? 0) && (totalDisputes data =? 0) = false ->
  predict_proba a [features data] = Return probs ->
  getitem probs 0 = Return row ->
  getitem row 1 = Return p ->
  (p = S754_nan ->
   fst (predict_risk_score data w)
   = Raise (HTTPException 500
              "Prediction Error: cannot convert float NaN to integer"))
  /\ (forall s, p = S754_infinity s ->
      fst (predict_risk_score data w)
      = Raise (HTTPException 500
                 "Prediction Error: cannot convert float infinity to integer")).
Proof.
  intros Hw Ha Hz Hprobs Hrow Hp.
  rewrite (predict_model_path_run w a data Hw Ha Hz), Hprobs.
  unfold score_of_probs. rewrite Hrow, Hp. cbn [fst].
  split.
  - intros ->. reflexivity.
  - intros s ->. reflexivity.
Qed.

Lemma X4_witness :
  fst (predict_risk_score (request 1 1)
         (started (fs_holding (PyArtifact (constant_classifier S754_nan S754_nan)))))
  = Raise (HTTPException 500
             "Prediction Error: cannot convert float NaN to integer").
Proof.
  apply (proj1 (X4_nan_and_infinity_are_500
           (started (fs_holding (PyArtifact (constant_classifier S754_nan S754_nan))))
           (constant_classifier S754_nan S754_nan) (request 1 1)
           [[S754_nan; S754_nan]] [S754_nan; S754_nan] S754_nan
           eq_refl eq_refl eq_refl eq_refl eq_refl eq_refl)).
  reflexivity.
Defined.

(** X5. The artifact is consulted exactly when [bool()] of the handle is
    True and the two fields are not both zero, and then once, on a single
    row whose columns are "missedPeriods" and "totalDisputes", in that
    order, with the values of the request; in every other case no inference
    is made. *)
Theorem X5_inference_discipline
  (w : World) (o : PyObject) (data : TenantScoreRequest) :
  app_state_model w = Some o ->
  inferences (snd (predict_risk_score data w))
  = inferences w
    ++ (if is_true (truthy o)
           && negb ((missedPeriods data =? 0) && (totalDisputes data =? 0))
        then [[[("missedPeriods"%string, missedPeriods data);
                ("totalDisputes"%string, totalDisputes data)]]]
        else []).
Proof.
  intros Hw.
  destruct (predict_cases w o data Hw)
    as [(e & Ho & ->) | [(Ho & ->) | [(Ho & Hz & ->) | (a & -> & Ha & Hz & ->)]]];
    cbn [snd].
  - rewrite Ho. cbn. symmetry. apply app_nil_r.
  - rewrite Ho. cbn. symmetry. apply app_nil_r.
  - rewrite Ho, Hz. cbn. symmetry. apply app_nil_r.
  - cbn [truthy]. rewrite Ha, Hz. reflexivity.
Qed.

Lemma X5_witness :
  let w := started (fs_holding (PyArtifact (constant_classifier f_0_18 f_0_82))) in
  inferences (snd (predict_risk_score (request 2 1) w))
  = [[[("missedPeriods"%string, 2); ("totalDisputes"%string, 1)]]]
  /\ inferences (snd (predict_risk_score (request 0 0) w)) = [].
Proof.
  split.
  - apply (X5_inference_discipline
             (started (fs_holding (PyArtifact (constant_classifier f_0_18 f_0_82))))
             (PyArtifact (constant_classifier f_0_18 f_0_82)) (request 2 1)).
    reflexivity.
  - apply (X5_inference_discipline
             (started (fs_holding (PyArtifact (constant_classifier f_0_18 f_0_82))))
             (PyArtifact (constant_classifier f_0_18 f_0_82)) (request 0 0)).
    reflexivity.
Defined.

(** X6. No route assigns [app.state.model] and no route prints: after any
    sequence of GET / and POST /predict/score requests the model handle and
    the output are what they were, and the artifact has been called at most
    once per request. *)
Theorem X6_routes_keep_the_model (rqs : list Request) (w : World) :
  app_state_model (serve_all rqs w) = app_state_model w
  /\ stdout (serve_all rqs w) = stdout w
  /\ exists calls,
       inferences (serve_all rqs w) = inferences w ++ calls
       /\ (List.length calls <= List.length rqs)%nat.
Proof.
  unfold serve_all. revert w.
  induction rqs as [| rq rqs IH]; intros w; cbn [fold_left].
  - split; [reflexivity | split; [reflexivity |]].
    exists []. rewrite app_nil_r. split; [reflexivity | cbn; lia].
  - destruct (IH (serve rq w)) as (Hm & Hs & calls & Hi & Hlen).
    destruct (serve_preserves rq w) as (Hm1 & Hs1 & calls1 & Hi1 & Hlen1).
    split; [congruence | split; [congruence |]].
    exists (calls1 ++ calls). split.
    + rewrite Hi, Hi1, app_assoc. reflexivity.
    + rewrite length_app. cbn [List.length]. lia.
Qed.

Lemma serve_all_model (rqs : list Request) (w : World) :
  app_state_model (serve_all rqs w) = app_state_model w.
Proof.
  unfold serve_all. revert w.
  induction rqs as [| rq rqs IH]; intros w; cbn [fold_left]; [reflexivity |].
  rewrite IH. apply serve_preserves.
Qed.

Lemma serve_all_stdout (rqs : list Request) (w : World) :
  stdout (serve_all rqs w) = stdout w.
Proof.
  unfold serve_all. revert w.
  induction rqs as [| rq rqs IH]; intros w; cbn [fold_left]; [reflexivity |].
  rewrite IH. apply serve_preserves.
Qed.

Lemma predict_503_iff (w : World) (o : PyObject) (data : TenantScoreRequest)
  (b : bool) :
  app_state_model w = Some o -> truthy o = Return b ->
  fst (predict_risk_score data w) = Raise model_not_loaded <-> b = false.
Proof.
  intros Hw Hb.
  destruct (predict_cases w o data Hw)
    as [(e & Ho & H) | [(Ho & H) | [(Ho & _ & H) | (a & -> & Ha & _ & H)]]];
    rewrite H; cbn [fst].
  - rewrite Hb in Ho. discriminate.
  - rewrite Hb in Ho. injection Ho as ->. split; reflexivity.
  - rewrite Hb in Ho. injection Ho as ->. split; discriminate.
  - cbn [truthy] in Hb. rewrite Hb in Ha. injection Ha as ->.
    split; [| discriminate]. intros Habs. exfalso.
    assert (Hno503 : forall e, surfaced e <> model_not_loaded).
    { intros e. unfold surfaced, prediction_error.
      destruct e; cbn; discriminate. }
    destruct (predict_proba a [features data]) as [probs | e].
    + destruct (score_of_probs probs) as [s | e]; [discriminate |].
      injection Habs as Habs. exact (Hno503 e Habs).
    + injection Habs as Habs. exact (Hno503 e Habs).
Qed.

(** X7. Availability is decided at start-up and never changes: whatever
    requests were served in between, POST /predict/score answers 503
    exactly when [bool()] of the handle assigned at start-up is False, and
    GET / keeps reporting whether that handle is None; with such a handle
    the requests leave no trace at all. *)
Theorem X7_availability_is_fixed
  (rqs : list Request) (w : World) (o : PyObject) (data : TenantScoreRequest)
  (b : bool) :
  app_state_model w = Some o -> truthy o = Return b ->
  (fst (predict_risk_score data (serve_all rqs w))
   = Raise (HTTPException 503 "AI Model is not loaded on server.")
   <-> b = false)
  /\ fst (health_check (serve_all rqs w))
     = Return {| status := "Online"; model_loaded := is_not_None o |}
  /\ (b = false -> serve_all rqs w = w).
Proof.
  intros Hw Hb.
  assert (Hw' : app_state_model (serve_all rqs w) = Some o)
    by (rewrite serve_all_model; exact Hw).
  split; [| split].
  - apply (predict_503_iff (serve_all rqs w) o data b Hw' Hb).
  - rewrite (health_check_run (serve_all rqs w) o Hw'). reflexivity.
  - intros ->. apply (serve_all_unavailable rqs w o Hw Hb).
Qed.

Lemma X7_witness :
  let rqs := [POST_predict_score (request 0 0); GET_root;
              POST_predict_score (request 3 2)] in
  fst (predict_risk_score (request 1 0) (serve_all rqs (started fs_absent)))
  = Raise (HTTPException 503 "AI Model is not loaded on server.")
  /\ serve_all rqs (started fs_absent) = started fs_absent.
Proof.
  split.
  - apply (proj1 (X7_availability_is_fixed
                    [POST_predict_score (request 0 0); GET_root;
                     POST_predict_score (request 3 2)]
                    (started fs_absent) PyNone (request 1 0) false
                    eq_refl eq_refl)).
    reflexivity.
  - apply (proj2 (proj2 (X7_availability_is_fixed
                    [POST_predict_score (request 0 0); GET_root;
                     POST_predict_score (request 3 2)]
                    (started fs_absent) PyNone (request 1 0) false
                    eq_refl eq_refl))).
    reflexivity.
Defined.

(** X8. What a process prints over its whole life is two lines: the line of
    start-up (one or the other, according to the file being there) and the
    line of shutdown, whatever requests were served in between. *)
Theorem X8_output_of_a_life
  (fs : FileSystem) (w0 w1 : World) (rqs : list Request) :
  lifespan fs w0 = (Return tt, w1) ->
  lifespan_shutdown (serve_all rqs w1)
  = (Return tt,
     {| app_state_model := app_state_model w1;
        stdout := stdout w0
                  ++ [if path_exists fs MODEL_PATH
                      then loaded_message else not_found_message;
                      "Shutting down Tenant Risk API..."%string];
        inferences := inferences (serve_all rqs w1) |}).
Proof.
  intros Hstart. unfold lifespan_shutdown, print.
  rewrite serve_all_model, serve_all_stdout. f_equal. f_equal.
  destruct (path_exists fs MODEL_PATH) eqn:Hex.
  - destruct (joblib_load fs MODEL_PATH) as [o | e] eqn:Hload.
    + rewrite (lifespan_loaded fs w0 o Hex Hload) in Hstart.
      injection Hstart as <-. cbn [stdout]. rewrite <- app_assoc. reflexivity.
    + rewrite (lifespan_load_raises fs w0 e Hex Hload) in Hstart. discriminate.
  - rewrite (lifespan_absent fs w0 Hex) in Hstart.
    injection Hstart as <-. cbn [stdout]. rewrite <- app_assoc. reflexivity.
Qed.

Lemma X8_witness :
  stdout (snd (lifespan_shutdown
                 (serve_all [POST_predict_score (request 2 1); GET_root]
                    (started (fs_holding
                       (PyArtifact (constant_classifier f_0_18 f_0_82)))))))
  = [loaded_message; "Shutting down Tenant Risk API..."%string].
Proof.
  rewrite (X8_output_of_a_life
             (fs_holding (PyArtifact (constant_classifier f_0_18 f_0_82)))
             boot
             (started (fs_holding (PyArtifact (constant_classifier f_0_18 f_0_82))))
             [POST_predict_score (request 2 1); GET_root] eq_refl).
  reflexivity.
Defined.

(** The rounded result of an operation has the sign it was asked for, or is
    NaN. *)
Lemma binary_round_aux_sign (sx : bool) (mx ex : Z) (lx : location) :
  let r := binary_round_aux 53 1024 sx mx ex lx in
  r = S754_zero sx \/ r = S754_infinity sx \/ r = S754_nan
  \/ exists m e, r = S754_finite sx m e.
Proof.
  unfold binary_round_aux.
  destruct (shr_fexp 53 1024 mx ex lx) as [r1 e1].
  destruct (shr_fexp 53 1024 _ e1 loc_Exact) as [r2 e2].
  destruct (shr_m r2) as [| m | m]; [auto | | auto].
  destruct (e2 <=? 1024 - 53); [right; right; right; eauto | auto].
Qed.

Lemma trunc_magnitude_nonneg (m : positive) (e : Z) :
  0 <= Float64.trunc_magnitude m e.
Proof.
  destruct e as [| q | q]; cbn [Float64.trunc_magnitude].
  - lia.
  - apply Z.shiftl_nonneg. lia.
  - apply Z.shiftr_nonneg. lia.
Qed.

(** X9. The handler does not clamp what the artifact answers: on the model
    path a negative trust probability, if it yields a response at all, yields
    a trust score that is zero or negative, with category "Risky" and
    recommendation "Review Manually". *)
Theorem X9_negative_probability_is_not_clamped
  (w w' : World) (a : Artifact) (data : TenantScoreRequest)
  (probs : ndarray) (row : list Float64.float64) (m : positive) (e : Z)
  (resp : ScoreResponse) :
  app_state_model w = Some (PyArtifact a) -> truth_value a = Return true ->
  (missedPeriods data =? 0) && (totalDisputes data =? 0) = false ->
  predict_proba a [features data] = Return probs ->
  getitem probs 0 = Return row ->
  getitem row 1 = Return (S754_finite true m e) ->
  predict_risk_score data w = (Return resp, w') ->
  trust_score resp <= 0
  /\ risk_category resp = "Risky"%string
  /\ recommendation resp = "Review Manually"%string.
Proof.
  intros Hw Ha Hz Hprobs Hrow Hp Hrun.
  rewrite (predict_model_path_run w a data Hw Ha Hz), Hprobs in Hrun.
  unfold score_of_probs in Hrun. rewrite Hrow, Hp in Hrun.
  change (Float64.of_int 100) with Float64.hundred in Hrun.
  unfold Float64.mul, Float64.hundred, Float64.prec, Float64.emax in Hrun.
  cbn [SFmul xorb] in Hrun.
  destruct (binary_round_aux_sign true (Zpos (m * 7036874417766400)) (e + -46)
              loc_Exact) as [Hr | [Hr | [Hr | (m' & e' & Hr)]]];
    rewrite Hr in Hrun; cbn [Float64.to_int] in Hrun; try discriminate.
  - injection Hrun as <- _. cbn. split; [lia | split; reflexivity].
  - injection Hrun as <- _. unfold response_of_score. cbn [trust_score
      risk_category recommendation cond_Zopp].
    pose proof (trunc_magnitude_nonneg m' e') as Hn.
    unfold categorize. rewrite Z.gtb_ltb.
    destruct (Z.ltb_spec 75 (- Float64.trunc_magnitude m' e')); [lia |].
    destruct (Z.ltb_spec (- Float64.trunc_magnitude m' e') 40); [| lia].
    cbn. split; [lia | auto].
Qed.

Lemma X9_witness :
  let w := started (fs_holding
                      (PyArtifact (constant_classifier f_0_82 f_minus_0_5))) in
  let resp := {| trust_score := -50; risk_category := "Risky";
                 recommendation := "Review Manually" |} in
  predict_risk_score (request 1 1) w
  = (Return resp, record_call [features (request 1 1)] w)
  /\ trust_score resp <= 0.
Proof.
  split; [reflexivity |].
  apply (X9_negative_probability_is_not_clamped
           (started (fs_holding
                       (PyArtifact (constant_classifier f_0_82 f_minus_0_5))))
           (record_call [features (request 1 1)]
              (started (fs_holding
                          (PyArtifact (constant_classifier f_0_82 f_minus_0_5)))))
           (constant_classifier f_0_82 f_minus_0_5) (request 1 1)
           [[f_0_82; f_minus_0_5]] [f_0_82; f_minus_0_5]
           4503599627370496 (-53)
           {| trust_score := -50; risk_category := "Risky";
              recommendation := "Review Manually" |});
    reflexivity.
Defined.

(** A float whose value is not negative converts to the floor of that
    value. *)
Lemma to_int_of_nonneg_value (x : Float64.float64) (q : Q) :
  Float64.to_Q x = Some q -> (0 <= q)%Q -> Float64.to_int x = Return (Qfloor q).
Proof.
  intros Hq Hpos.
  destruct x as [s | s | | s m e]; cbn [Float64.to_Q] in Hq; try discriminate.
  - injection Hq as <-. reflexivity.
  - destruct s.
    + exfalso. injection Hq as <-.
      destruct e as [| p | p];
        unfold Qle, Qnum, Qden, cond_Zopp in Hpos.
      * lia.
      * change (0 * 1 <= - (Zpos m * 2 ^ Zpos p) * 1) in Hpos.
        assert (0 < 2 ^ Zpos p) by (apply Z.pow_pos_nonneg; lia). nia.
      * lia.
    + assert (Hfl : Float64.floor (S754_finite false m e)
                    = Some (Float64.trunc_magnitude m e))
        by (apply to_int_floor_nonneg; [discriminate | reflexivity]).
      unfold Float64.floor in Hfl. cbn [Float64.to_Q] in Hfl.
      rewrite Hq in Hfl. cbn [option_map] in Hfl. injection Hfl as Hfl.
      cbn [Float64.to_int cond_Zopp]. rewrite Hfl. reflexivity.
Qed.

(** X10. The thresholds, read on the product the handler computes: when the
    binary64 product [trust_probability * 100] has a value [q] that is not
    negative, the trust score is the integer part of [q], the
    recommendation is "Approve" exactly when [q >= 76] (a product of
    75.99 is not approved) and the category is "Risky" exactly when
    [q < 40]. *)
Theorem X10_thresholds_on_the_product
  (w : World) (a : Artifact) (data : TenantScoreRequest)
  (probs : ndarray) (row : list Float64.float64) (p : Float64.float64) (q : Q) :
  app_state_model w = Some (PyArtifact a) -> truth_value a = Return true ->
  (missedPeriods data =? 0) && (totalDisputes data =? 0) = false ->
  predict_proba a [features data] = Return probs ->
  getitem probs 0 = Return row ->
  getitem row 1 = Return p ->
  Float64.to_Q (Float64.mul p (Float64.of_int 100)) = Some q ->
  (0 <= q)%Q ->
  exists resp,
    fst (predict_risk_score data w) = Return resp
    /\ trust_score resp = Qfloor q
    /\ (recommendation resp = "Approve"%string <-> (inject_Z 76 <= q)%Q)
    /\ (risk_category resp = "Risky"%string <-> (q < inject_Z 40)%Q).
Proof.
  intros Hw Ha Hz Hprobs Hrow Hp Hq Hpos.
  rewrite (predict_model_path_run w a data Hw Ha Hz), Hprobs.
  unfold score_of_probs. rewrite Hrow, Hp.
  rewrite (to_int_of_nonneg_value _ q Hq Hpos). cbn [fst].
  exists (response_of_score (Qfloor q)).
  split; [reflexivity | split; [reflexivity |]].
  unfold response_of_score. cbn [recommendation risk_category].
  unfold categorize. rewrite Z.gtb_ltb.
  pose proof (Qfloor_le q) as Hlo. pose proof (Qlt_floor q) as Hhi.
  destruct (Z.ltb_spec 75 (Qfloor q)) as [H75 | H75]; cbn [fst snd].
  - split.
    + split; [intros _ | reflexivity].
      apply Qle_trans with (y := inject_Z (Qfloor q)); [| exact Hlo].
      rewrite <- Zle_Qle. lia.
    + split; [discriminate |]. intros Hlt. exfalso.
      assert (Hc : (inject_Z (Qfloor q) < inject_Z 40)%Q)
        by (eapply Qle_lt_trans; eassumption).
      rewrite <- Zlt_Qlt in Hc. lia.
  - assert (Hnot76 : ~ (inject_Z 76 <= q)%Q).
    { intros H76. apply Qfloor_resp_le in H76. rewrite Qfloor_Z in H76. lia. }
    destruct (Z.ltb_spec (Qfloor q) 40) as [H40 | H40]; cbn [fst snd].
    + split; [split; [discriminate | intros H; contradiction] |].
      split; [intros _ | reflexivity].
      apply Qlt_le_trans with (y := inject_Z (Qfloor q + 1)); [exact Hhi |].
      rewrite <- Zle_Qle. lia.
    + split; [split; [discriminate | intros H; contradiction] |].
      split; [discriminate |]. intros Hlt. exfalso.
      assert (Hc : (inject_Z (Qfloor q) < inject_Z 40)%Q)
        by (eapply Qle_lt_trans; eassumption).
      rewrite <- Zlt_Qlt in Hc. lia.
Qed.

Lemma X10_witness :
  let w := started (fs_holding (PyArtifact (constant_classifier f_0_24 f_0_76))) in
  let q := (5348024557502464 # 70368744177664)%Q in
  Float64.to_Q (Float64.mul f_0_76 (Float64.of_int 100)) = Some q
  /\ exists resp,
       fst (predict_risk_score (request 2 1) w) = Return resp
       /\ trust_score resp = Qfloor q
       /\ (recommendation resp = "Approve"%string <-> (inject_Z 76 <= q)%Q)
       /\ (risk_category resp = "Risky"%string <-> (q < inject_Z 40)%Q).
Proof.
  split; [vm_compute; reflexivity |].
  apply (X10_thresholds_on_the_product
           (started (fs_holding (PyArtifact (constant_classifier f_0_24 f_0_76))))
           (constant_classifier f_0_24 f_0_76) (request 2 1)
           [[f_0_24; f_0_76]] [f_0_24; f_0_76] f_0_76
           (5348024557502464 # 70368744177664)%Q);
    try reflexivity.
  unfold Qle, Z.le. vm_compute. intros H. discriminate H.
Defined.

(** X11. Step 4 is monotone in the score: a higher score never gets a worse
    category or loses the approval; what is "Safe" stays "Safe" above, what
    is "Risky" stays "Risky" below. *)
Theorem X11_categorize_is_monotone (s1 s2 : Z) :
  s1 <= s2 ->
  (fst (categorize s1) = "Safe"%string -> fst (categorize s2) = "Safe"%string)
  /\ (snd (categorize s1) = "Approve"%string ->
      snd (categorize s2) = "Approve"%string)
  /\ (fst (categorize s2) = "Risky"%string -> fst (categorize s1) = "Risky"%string)
  /\ (fst (categorize s1) = "Moderate"%string ->
      fst (categorize s2) <> "Risky"%string).
Proof.
  intros Hle. unfold categorize. rewrite !Z.gtb_ltb.
  destruct (Z.ltb_spec 75 s1), (Z.ltb_spec 75 s2),
           (Z.ltb_spec s1 40), (Z.ltb_spec s2 40);
    cbn [fst snd]; repeat split; intros; try lia; try discriminate;
    try reflexivity; try assumption.
Qed.

Lemma X11_witness :
  76 <= 90 /\ fst (categorize 90) = "Safe"%string.
Proof.
  split; [lia |].
  destruct (X11_categorize_is_monotone 76 90) as [H _]; [lia |].
  apply H. reflexivity.
Defined.

(** X12. Of the array the artifact answers, the handler reads [probs[0][1]]
    and nothing else: two artifacts whose answers have the same second
    component in their first row get the same result for the same request,
    whatever the other component (it is not checked that the two sum to 1)
    and whatever further rows or columns there are. *)
Theorem X12_only_prob_good_is_read
  (w1 w2 : World) (a1 a2 : Artifact) (data : TenantScoreRequest)
  (probs1 probs2 : ndarray) (row1 row2 : list Float64.float64)
  (p : Float64.float64) :
  app_state_model w1 = Some (PyArtifact a1) -> truth_value a1 = Return true ->
  app_state_model w2 = Some (PyArtifact a2) -> truth_value a2 = Return true ->
  predict_proba a1 [features data] = Return probs1 ->
  predict_proba a2 [features data] = Return probs2 ->
  getitem probs1 0 = Return row1 -> getitem row1 1 = Return p ->
  getitem probs2 0 = Return row2 -> getitem row2 1 = Return p ->
  fst (predict_risk_score data w1) = fst (predict_risk_score data w2).
Proof.
  intros Hw1 Ha1 Hw2 Ha2 Hp1 Hp2 Hr1 Hc1 Hr2 Hc2.
  destruct ((missedPeriods data =? 0) && (totalDisputes data =? 0)) eqn:Hz.
  - rewrite (predict_fast_path w1 _ data Hw1 Ha1 Hz),
            (predict_fast_path w2 _ data Hw2 Ha2 Hz). reflexivity.
  - rewrite (predict_model_path_run w1 a1 data Hw1 Ha1 Hz),
            (predict_model_path_run w2 a2 data Hw2 Ha2 Hz), Hp1, Hp2.
    unfold score_of_probs. rewrite Hr1, Hc1, Hr2, Hc2. reflexivity.
Qed.

Lemma X12_witness :
  fst (predict_risk_score (request 2 1)
         (started (fs_holding (PyArtifact (constant_classifier f_0_18 f_0_82)))))
  = fst (predict_risk_score (request 2 1)
           (started (fs_holding (PyArtifact (constant_classifier f_0_999 f_0_82))))).
Proof.
  apply (X12_only_prob_good_is_read
           (started (fs_holding (PyArtifact (constant_classifier f_0_18 f_0_82))))
           (started (fs_holding (PyArtifact (constant_classifier f_0_999 f_0_82))))
           (constant_classifier f_0_18 f_0_82)
           (constant_classifier f_0_999 f_0_82)
           (request 2 1)
           [[f_0_18; f_0_82]] [[f_0_999; f_0_82]]
           [f_0_18; f_0_82] [f_0_999; f_0_82] f_0_82);
    reflexivity.
Defined.

(** X13. The success line of start-up does not mean the service is
    available: when the file exists and [joblib.load] returns, the line
    "Production Model Loaded Successfully." is printed whatever was
    unpickled; if that object is None or falsy, every POST /predict/score
    is answered 503 all the same. *)
Theorem X13_success_line_without_availability
  (fs : FileSystem) (w0 : World) (o : PyObject) (data : TenantScoreRequest) :
  path_exists fs MODEL_PATH = true ->
  joblib_load fs MODEL_PATH = Return o ->
  truthy o = Return false ->
  exists w1,
    lifespan fs w0 = (Return tt, w1)
    /\ stdout w1 = stdout w0 ++ [loaded_message]
    /\ predict_risk_score data w1
       = (Raise (HTTPException 503 "AI Model is not loaded on server."), w1).
Proof.
  intros Hex Hload Ho. eexists. split; [| split].
  - apply (lifespan_loaded fs w0 o Hex Hload).
  - reflexivity.
  - apply (predict_unavailable _ o data); [reflexivity | exact Ho].
Qed.

Lemma X13_witness :
  exists w1,
    lifespan (fs_holding PyNone) boot = (Return tt, w1)
    /\ stdout w1 = stdout boot ++ [loaded_message]
    /\ predict_risk_score (request 0 0) w1
       = (Raise (HTTPException 503 "AI Model is not loaded on server."), w1).
Proof.
  apply (X13_success_line_without_availability
           (fs_holding PyNone) boot PyNone (request 0 0));
    reflexivity.
Defined.

(* ===================================================================== *)
(** ** The score is monotone in the probability *)
(* ===================================================================== *)

Lemma approve_iff (s : Z) : snd (categorize s) = "Approve"%string <-> 75 < s.
Proof.
  unfold categorize. rewrite Z.gtb_ltb.
  destruct (Z.ltb_spec 75 s); [| destruct (Z.ltb_spec s 40)]; cbn [snd];
    split; intros; try lia; try discriminate; reflexivity.
Qed.

Lemma risky_iff (s : Z) : fst (categorize s) = "Risky"%string <-> s < 40.
Proof.
  unfold categorize. rewrite Z.gtb_ltb.
  destruct (Z.ltb_spec 75 s); [| destruct (Z.ltb_spec s 40)]; cbn [fst];
    split; intros; try lia; try discriminate; reflexivity.
Qed.

(** X14. A higher trust probability never gives a lower trust score: of two
    calls on the model path whose trust probabilities [p <= q] lie in
    [0, 1], both return a response, the trust score of the first is at most
    that of the second, an approval of the first is an approval of the
    second, and the first is "Risky" whenever the second is.  The rounding
    of the product [p * 100] to binary64 does not break the order. *)
Theorem X14_score_is_monotone
  (w1 w2 : World) (a1 a2 : Artifact) (data1 data2 : TenantScoreRequest)
  (probs1 probs2 : ndarray) (row1 row2 : list Float64.float64)
  (p q : Float64.float64) :
  app_state_model w1 = Some (PyArtifact a1) -> truth_value a1 = Return true ->
  (missedPeriods data1 =? 0) && (totalDisputes data1 =? 0) = false ->
  app_state_model w2 = Some (PyArtifact a2) -> truth_value a2 = Return true ->
  (missedPeriods data2 =? 0) && (totalDisputes data2 =? 0) = false ->
  predict_proba a1 [features data1] = Return probs1 ->
  getitem probs1 0 = Return row1 -> getitem row1 1 = Return p ->
  predict_proba a2 [features data2] = Return probs2 ->
  getitem probs2 0 = Return row2 -> getitem row2 1 = Return q ->
  Float64.is_probability p = true ->
  Float64.is_probability q = true ->
  Float64.leb p q = true ->
  exists resp1 resp2,
    fst (predict_risk_score data1 w1) = Return resp1
    /\ fst (predict_risk_score data2 w2) = Return resp2
    /\ trust_score resp1 <= trust_score resp2
    /\ (recommendation resp1 = "Approve"%string ->
        recommendation resp2 = "Approve"%string)
    /\ (risk_category resp2 = "Risky"%string ->
        risk_category resp1 = "Risky"%string).
Proof.
  intros Hw1 Ha1 Hz1 Hw2 Ha2 Hz2 Hp1 Hr1 Hc1 Hp2 Hr2 Hc2 Hp Hq Hle.
  destruct (score_monotone p q Hp Hq Hle) as (sp & sq & Hsp & Hsq & Hord & _).
  exists (response_of_score sp), (response_of_score sq).
  rewrite (predict_model_path_run w1 a1 data1 Hw1 Ha1 Hz1), Hp1.
  rewrite (predict_model_path_run w2 a2 data2 Hw2 Ha2 Hz2), Hp2.
  unfold score_of_probs. rewrite Hr1, Hc1, Hsp, Hr2, Hc2, Hsq. cbn [fst].
  split; [reflexivity | split; [reflexivity |]].
  unfold response_of_score. cbn [trust_score recommendation risk_category].
  split; [lia | split].
  - rewrite !approve_iff. lia.
  - rewrite !risky_iff. lia.
Qed.

Lemma X14_witness :
  exists resp1 resp2,
    fst (predict_risk_score (request 5 3)
           (started (fs_holding (PyArtifact (constant_classifier f_0_70 f_0_30)))))
    = Return resp1
    /\ fst (predict_risk_score (request 2 1)
              (started (fs_holding (PyArtifact (constant_classifier f_0_18 f_0_82)))))
       = Return resp2
    /\ trust_score resp1 <= trust_score resp2
    /\ (recommendation resp1 = "Approve"%string ->
        recommendation resp2 = "Approve"%string)
    /\ (risk_category resp2 = "Risky"%string ->
        risk_category resp1 = "Risky"%string).
Proof.
  apply (X14_score_is_monotone
           (started (fs_holding (PyArtifact (constant_classifier f_0_70 f_0_30))))
           (started (fs_holding (PyArtifact (constant_classifier f_0_18 f_0_82))))
           (constant_classifier f_0_70 f_0_30) (constant_classifier f_0_18 f_0_82)
           (request 5 3) (request 2 1)
           [[f_0_70; f_0_30]] [[f_0_18; f_0_82]]
           [f_0_70; f_0_30] [f_0_18; f_0_82] f_0_30 f_0_82);
    reflexivity.
Defined.

(** X15. Against exact arithmetic: on the model path, for a trust
    probability [p] in [0, 1], the trust score is the floor of the exact
    product [100 * p] or that floor plus one, never less and never more;
    the rounding of the product can lift the score by one (0.30 scores 30,
    the exact product lying just below 30) and cannot lower it. *)
Theorem X15_score_within_one_of_exact_floor
  (w : World) (a : Artifact) (data : TenantScoreRequest)
  (probs : ndarray) (row : list Float64.float64) (p : Float64.float64) :
  app_state_model w = Some (PyArtifact a) -> truth_value a = Return true ->
  (missedPeriods data =? 0) && (totalDisputes data =? 0) = false ->
  predict_proba a [features data] = Return probs ->
  getitem probs 0 = Return row ->
  getitem row 1 = Return p ->
  Float64.is_probability p = true ->
  exists resp f,
    fst (predict_risk_score data w) = Return resp
    /\ Float64.floor_of_exact_product p 100 = Some f
    /\ f <= trust_score resp <= f + 1.
Proof.
  intros Hw Ha Hz Hprobs Hrow Hp Hrange.
  destruct (score_near_exact_floor p Hrange) as (s & f & Hs & Hf & Hsf).
  exists (response_of_score s), f.
  rewrite (predict_model_path_run w a data Hw Ha Hz), Hprobs.
  unfold score_of_probs. rewrite Hrow, Hp, Hs. cbn [fst].
  split; [reflexivity | split; [exact Hf | exact Hsf]].
Qed.

Lemma X15_witness :
  Float64.floor_of_exact_product f_0_30 100 = Some 29
  /\ exists resp f,
       fst (predict_risk_score (request 5 3)
              (started (fs_holding
                          (PyArtifact (constant_classifier f_0_70 f_0_30)))))
       = Return resp
       /\ Float64.floor_of_exact_product f_0_30 100 = Some f
       /\ f <= trust_score resp <= f + 1.
Proof.
  split; [vm_compute; reflexivity |].
  apply (X15_score_within_one_of_exact_floor
           (started (fs_holding (PyArtifact (constant_classifier f_0_70 f_0_30))))
           (constant_classifier f_0_70 f_0_30) (request 5 3)
           [[f_0_70; f_0_30]] [f_0_70; f_0_30] f_0_30);
    reflexivity.
Defined.
